(** * Photo-Watermark: the date resolver, the compositor and the driver of
    [src/main.py], embedded in Rocq, with the properties of its
    specification.

    The program is almost entirely input and output. It is modelled as
    follows.
    - Python values: [int] is [Z]; [str] is [string], a character standing
      for a code point below 256; a tuple of ints is [list Z]; the
      dictionary of EXIF tags is a [gmap string string].
    - The outside world that the program only reads (file system queries,
      the EXIF reader, the image decoder, the font rasterizer, the clock) is
      a record [World] of functions.
    - What the program does to the outside (lines printed, directories made,
      files written) is a chronological list of [event]s.
    - Exceptions are explicit: a computation ends in [Ok v] or [Raise e].
    - [os.path] is the POSIX flavour ([posixpath]). *)

From Stdlib Require Import ZArith Ascii String List Bool Lia.
From stdpp Require Import gmap strings list.

Local Open Scope string_scope.
Local Open Scope list_scope.
Local Open Scope Z_scope.

(* ===================================================================== *)
(** ** Python strings *)
(* ===================================================================== *)

Module PyStr.

Definition code (c : ascii) : Z := Z.of_N (N_of_ascii c).

Definition chr (z : Z) : ascii := ascii_of_N (Z.to_N z).

(** [str.isspace] on one character, restricted to code points below 256:
    TAB..CR, FS..US, space, NEL and NBSP. *)
Definition isspace (c : ascii) : bool :=
  let n := code c in
  ((9 <=? n) && (n <=? 13)) || ((28 <=? n) && (n <=? 32))
  || (n =? 133) || (n =? 160).

Definition isdigit (c : ascii) : bool :=
  let n := code c in (48 <=? n) && (n <=? 57).

(** [str.lower] on one character: A..Z and the upper-case letters of
    Latin-1 (all of 192..222 but the multiplication sign 215). *)
Definition lower_char (c : ascii) : ascii :=
  let n := code c in
  if ((65 <=? n) && (n <=? 90))
     || ((192 <=? n) && (n <=? 222) && negb (n =? 215))
  then chr (n + 32) else c.

Fixpoint lower (s : string) : string :=
  match s with
  | EmptyString => EmptyString
  | String c r => String (lower_char c) (lower r)
  end.

Fixpoint lstrip (s : string) : string :=
  match s with
  | String c r => if isspace c then lstrip r else s
  | EmptyString => EmptyString
  end.

(** [s.rstrip(...)]: the characters that satisfy [strippable] removed
    from the right end. *)
Fixpoint rstrip_by (strippable : ascii -> bool) (s : string) : string :=
  match s with
  | EmptyString => EmptyString
  | String c r =>
      match rstrip_by strippable r with
      | EmptyString =>
          if strippable c then EmptyString else String c EmptyString
      | r' => String c r'
      end
  end.

Definition rstrip (s : string) : string := rstrip_by isspace s.

Definition strip (s : string) : string := rstrip (lstrip s).

(** [s.rfind(c)]: the index of the last [c], or -1. *)
Fixpoint rfind (c : ascii) (s : string) : Z :=
  match s with
  | EmptyString => -1
  | String a r =>
      let i := rfind c r in
      if 0 <=? i then i + 1
      else if Ascii.eqb a c then 0 else -1
  end.

Fixpoint take (n : nat) (s : string) : string :=
  match n, s with
  | S n', String c r => String c (take n' r)
  | _, _ => EmptyString
  end.

Fixpoint skip (n : nat) (s : string) : string :=
  match n, s with
  | S n', String _ r => skip n' r
  | _, _ => s
  end.

(** [s[:i]] and [s[i:]] for an index [i >= 0]. *)
Definition upto (i : Z) (s : string) : string := take (Z.to_nat i) s.
Definition from (i : Z) (s : string) : string := skip (Z.to_nat i) s.

Definition startswith (c : ascii) (s : string) : bool :=
  match s with
  | String a _ => Ascii.eqb a c
  | EmptyString => false
  end.

Fixpoint endswith (c : ascii) (s : string) : bool :=
  match s with
  | EmptyString => false
  | String a EmptyString => Ascii.eqb a c
  | String _ r => endswith c r
  end.

(** [s == c * len(s)]: every character of [s] is [c]. *)
Fixpoint all_are (c : ascii) (s : string) : bool :=
  match s with
  | EmptyString => true
  | String a r => Ascii.eqb a c && all_are c r
  end.

(** [s.split(c)]: never empty, the pieces between the occurrences of
    [c]. *)
Fixpoint split (c : ascii) (s : string) : list string :=
  match s with
  | EmptyString => [EmptyString]
  | String a r =>
      if Ascii.eqb a c then EmptyString :: split c r
      else match split c r with
           | piece :: rest => String a piece :: rest
           | [] => [String a EmptyString]
           end
  end.

(** [x in xs] for a list of strings. *)
Definition mem (x : string) (xs : list string) : bool :=
  existsb (String.eqb x) xs.

(** The digits of a decimal literal after the sign: at least one digit,
    single underscores allowed between digits. [acc] is the value read so
    far, [after_digit] says whether the previous character was a
    digit. *)
Fixpoint digits (s : string) (acc : Z) (after_digit : bool) : option Z :=
  match s with
  | EmptyString => if after_digit then Some acc else None
  | String c r =>
      if isdigit c then digits r (10 * acc + (code c - 48)) true
      else if Ascii.eqb c "_" then
        if after_digit
        then match r with
             | String d _ => if isdigit d then digits r acc false else None
             | EmptyString => None
             end
        else None
      else None
  end.

(** The white space that [int()] skips around a literal: TAB..CR, space,
    NEL and NBSP. It is not the white space of [str.strip]: the separators
    FS..US (28..31) are not skipped, [int("\x1f12")] is a [ValueError]. *)
Definition isspace_int (c : ascii) : bool :=
  let n := code c in
  ((9 <=? n) && (n <=? 13)) || (n =? 32) || (n =? 133) || (n =? 160).

Fixpoint lstrip_by (strippable : ascii -> bool) (s : string) : string :=
  match s with
  | String c r => if strippable c then lstrip_by strippable r else s
  | EmptyString => EmptyString
  end.

(** [sys.int_info.default_max_str_digits]: a literal of more digits is a
    [ValueError]. This is the default of the interpreter; it can be set to
    another value, and interpreters before this cap have none. *)
Definition max_str_digits : Z := 4300.

(** The number of digits of a literal, leading zeros included, underscores
    not. *)
Fixpoint count_digits (s : string) : Z :=
  match s with
  | EmptyString => 0
  | String c r => (if isdigit c then 1 else 0) + count_digits r
  end.

(** The literal after the sign: its value, within the cap on the number
    of digits. *)
Definition literal (s : string) : option Z :=
  if count_digits s <=? max_str_digits then digits s 0 false else None.

(** [int(s)] in base 10; [None] stands for [ValueError]. The white space
    of [isspace_int] is dropped on both sides, one sign is allowed. *)
Definition int (s : string) : option Z :=
  match rstrip_by isspace_int (lstrip_by isspace_int s) with
  | String "+" r => literal r
  | String "-" r => option_map Z.opp (literal r)
  | t => literal t
  end.

End PyStr.

(* ===================================================================== *)
(** ** [os.path], POSIX flavour *)
(* ===================================================================== *)

Module OsPath.
Import PyStr.

Definition sep : ascii := "/"%char.
Definition extsep : ascii := "."%char.

(** [posixpath.join(a, b)]. *)
Definition join (a b : string) : string :=
  if startswith sep b then b
  else if (String.eqb a "") || endswith sep a then a +:+ b
  else a +:+ String sep b.

(** [posixpath.basename(p)]. *)
Definition basename (p : string) : string :=
  let i := rfind sep p + 1 in
  from i p.

(** [posixpath.dirname(p)]. *)
Definition dirname (p : string) : string :=
  let i := rfind sep p + 1 in
  let head := upto i p in
  if negb (String.eqb head "") && negb (all_are sep head)
  then rstrip_by (fun c => Ascii.eqb c sep) head
  else head.

(** The [while] loop of [genericpath._splitext]: is there a character
    other than a dot in [p[filenameIndex:dotIndex]]? One unit of fuel per
    index. *)
Fixpoint splitext_scan (p : string) (filenameIndex : Z) (fuel : nat) : bool :=
  match fuel with
  | O => false
  | S fuel' =>
      if negb (String.eqb (take 1 (from filenameIndex p)) (String extsep ""))
      then true
      else splitext_scan p (filenameIndex + 1) fuel'
  end.

(** [posixpath.splitext(p)]. *)
Definition splitext (p : string) : string * string :=
  let sepIndex := rfind sep p in
  let dotIndex := rfind extsep p in
  if (sepIndex <? dotIndex)
     && splitext_scan p (sepIndex + 1) (Z.to_nat (dotIndex - (sepIndex + 1)))
  then (upto dotIndex p, from dotIndex p)
  else (p, "").

End OsPath.

(* ===================================================================== *)
(** ** Values, exceptions, the outside world *)
(* ===================================================================== *)

(** The exception classes the program tells apart. [IOError] is Python 3's
    alias of [OSError]; [OtherError] stands for every other subclass of
    [Exception]. *)
Inductive exn : Type :=
| ValueError
| OSError
| AttributeError
| EOFError
| OtherError.

Inductive result (A : Type) : Type :=
| Ok (a : A)
| Raise (e : exn).
Arguments Ok {A} a.
Arguments Raise {A} e.

(** [datetime.datetime], naive (no time zone). *)
Record datetime : Type := mk_datetime {
  dt_year : Z; dt_month : Z; dt_day : Z;
  dt_hour : Z; dt_minute : Z; dt_second : Z
}.

(** A font object: a TrueType face loaded from a path at a size, or the
    built-in bitmap font. *)
Inductive font : Type :=
| FreeTypeFont (path : string) (size : Z)
| DefaultFont.

Inductive mode : Type := ModeRGB | ModeRGBA | ModeOther (name : string).

(** The pixel contents of an image, kept as the expression that built
    them: the program never looks at a pixel. *)
Inductive pixels : Type :=
| PxDecoded (path : string)
| PxFill (color : list Z)
| PxConvert (m : mode) (src : pixels)
| PxText (base : pixels) (xy : Z * Z) (text : string) (f : font)
         (fill : list Z)
| PxOver (base overlay : pixels).

(** [PIL.Image.Image]. *)
Record image : Type := mk_image {
  im_width : Z;
  im_height : Z;
  im_mode : mode;
  im_data : pixels
}.

(** What [Image.save] did. It opens the destination for writing and then
    runs the encoder: when it raises, a truncated file may already be there
    ([leftover]). *)
Inductive save_outcome : Type :=
| SaveOk
| SaveFails (e : exn) (leftover : bool).

(** A time stamp of the file system, in its own unit. *)
Definition timestamp : Type := Z.

(** What the program asks of its environment. Each field is the library
    call named in its comment; a call that can raise returns a [result]. *)
Record World : Type := mk_World {
  os_name : string;                                (* os.name *)
  path_exists : string -> bool;                    (* os.path.exists *)
  path_isfile : string -> bool;                    (* os.path.isfile *)
  path_isdir : string -> bool;                     (* os.path.isdir *)
  listdir : string -> result (list string);        (* os.listdir *)
  makedirs : string -> option exn;   (* os.makedirs(p, exist_ok=True) *)
  getmtime : string -> result timestamp;           (* os.path.getmtime *)
  fromtimestamp : timestamp -> result datetime;    (* datetime.fromtimestamp *)
  clock : nat -> datetime;           (* the n-th reading of datetime.now() *)
  strptime : string -> string -> option datetime;  (* datetime.strptime(s, fmt);
                                                      None is ValueError *)
  strftime : datetime -> string -> string;         (* d.strftime(fmt) *)
  exif_tags : string -> result (gmap string string);
    (* open(p, 'rb') and exifread.process_file: the tags, each value as
       str() prints it *)
  image_open : string -> result image;             (* Image.open(p), decoded *)
  truetype : string -> Z -> option exn;  (* ImageFont.truetype(path, size):
                                            None when the face loads *)
  getbbox : font -> string -> result (Z * Z * Z * Z);  (* font.getbbox(text) *)
  textsize : font -> string -> result (Z * Z);    (* draw.textsize(text, f) *)
  save : string -> image -> save_outcome           (* im.save(path) *)
}.

(** ** What the program prints *)

Inductive prompt : Type :=
| PromptPath | PromptFontSize | PromptFontColor | PromptPosition
| PromptOpacity.

(** One constructor for each [print] (and each [input] prompt) of the
    source, with the values its text quotes. *)
Inductive message : Type :=
| Banner
| Prompt (which : prompt)
| WarnPosition (given : string)
| WarnOpacity (given : Z)
| WarnColor (given : string)
| ErrorNoPath (path : string)
| SkipNonImage (path : string)
| ExifError (path : string) (e : exn)
| WarnDefaultFont
| Saved (output_path : string)
| ProcessError (path : string) (e : exn).

(** What a run does, in order. [EvCompositor] marks the entry of
    [add_watermark] with its arguments; it is a marker of the model, the
    others are effects on the console and the file system. *)
Inductive event : Type :=
| EvPrint (m : message)
| EvMakedirs (path : string)
| EvCompositor (image_path output_path text : string) (font_size : Z)
               (font_color : list Z) (position : string) (opacity : Z)
| EvSave (path : string) (im : image)
| EvPartial (path : string).

(** ** The monad of the program: console input and clock as state, events
    as output, exceptions *)

Record state : Type := mk_state {
  st_stdin : list string;   (* the lines still to be read *)
  st_clock : nat            (* how often the clock has been read *)
}.

Definition M (A : Type) : Type := state -> result A * list event * state.

Definition ret {A} (a : A) : M A := fun st => (Ok a, [], st).

Definition raise {A} (e : exn) : M A := fun st => (Raise e, [], st).

Definition bind {A B} (m : M A) (k : A -> M B) : M B := fun st =>
  match m st with
  | (Ok a, ev, st') =>
      let '(r, ev', st'') := k a st' in (r, ev ++ ev', st'')
  | (Raise e, ev, st') => (Raise e, ev, st')
  end.

Declare Scope monad_scope.
Delimit Scope monad_scope with monad.
Notation "x <- m ;; k" := (bind m (fun x => k))
  (at level 100, m at next level, right associativity) : monad_scope.
Notation "m ;; k" := (bind m (fun _ => k))
  (at level 100, right associativity) : monad_scope.
Local Open Scope monad_scope.

Definition emit (e : event) : M unit := fun st => (Ok tt, [e], st).

(** [print(...)]. *)
Definition print (m : message) : M unit := emit (EvPrint m).

(** A library call that returns or raises. *)
Definition lift {A} (r : result A) : M A := fun st => (r, [], st).

(** [try: body except <classes>: handler]. *)
Definition try_except {A} (body : M A) (catches : exn -> bool)
    (handler : exn -> M A) : M A := fun st =>
  match body st with
  | (Raise e, ev, st') =>
      if catches e
      then let '(r, ev', st'') := handler e st' in (r, ev ++ ev', st'')
      else (Raise e, ev, st')
  | done => done
  end.

Definition is_Exception (e : exn) : bool := true.
Definition is_IOError (e : exn) : bool :=
  match e with OSError => true | _ => false end.
Definition is_ValueError (e : exn) : bool :=
  match e with ValueError => true | _ => false end.
Definition is_AttributeError (e : exn) : bool :=
  match e with AttributeError => true | _ => false end.

(** [for x in xs: body]; a [continue] is a body that returns early. *)
Fixpoint for_each {A} (xs : list A) (body : A -> M unit) : M unit :=
  match xs with
  | [] => ret tt
  | x :: rest => body x ;; for_each rest body
  end.

(** [input(prompt).strip()]: the prompt is printed, the next line is
    read; [EOFError] at the end of the input. *)
Definition input_strip (which : prompt) : M string := fun st =>
  match st_stdin st with
  | line :: rest =>
      (Ok (PyStr.strip line), [EvPrint (Prompt which)],
       {| st_stdin := rest; st_clock := st_clock st |})
  | [] => (Raise EOFError, [EvPrint (Prompt which)], st)
  end.

(** [int(s)], raising [ValueError]. *)
Definition int_of (s : string) : M Z :=
  match PyStr.int s with
  | Some z => ret z
  | None => raise ValueError
  end.

(** [tuple(map(f, xs))]: left to right, the first exception ends it. *)
Fixpoint map_M {A B} (f : A -> M B) (xs : list A) : M (list B) :=
  match xs with
  | [] => ret []
  | x :: rest => y <- f x ;; ys <- map_M f rest ;; ret (y :: ys)
  end.

(* ===================================================================== *)
(** ** The program *)
(* ===================================================================== *)

Section Program.

Variable w : World.

(** [datetime.now()]: reads the clock. *)
Definition now : M datetime := fun st =>
  (Ok (clock w (st_clock st)), [],
   {| st_stdin := st_stdin st; st_clock := S (st_clock st) |}).

(** *** [get_exif_datetime] (lines 7-30) *)

Definition datetime_tags : list string :=
  ["EXIF DateTimeOriginal"; "EXIF DateTimeDigitized"; "Image DateTime"].

Definition exif_format : string := "%Y:%m:%d %H:%M:%S".

(** The [for tag in datetime_tags] loop (lines 15-22): [Some d] when the
    loop returns [d], [None] when it runs to its end. *)
Fixpoint scan_tags (tags : gmap string string) (names : list string)
    : option datetime :=
  match names with
  | [] => None
  | tag :: rest =>
      match tags !! tag with
      | Some date_str =>
          match strptime w date_str exif_format with
          | Some d => Some d
          | None => scan_tags tags rest
          end
      | None => scan_tags tags rest
      end
  end.

Definition get_exif_datetime (image_path : string) : M datetime :=
  try_except
    (tags <- lift (exif_tags w image_path) ;;
     match scan_tags tags datetime_tags with
     | Some d => ret d
     | None =>
         file_mtime <- lift (getmtime w image_path) ;;
         lift (fromtimestamp w file_mtime)
     end)
    is_Exception
    (fun e => print (ExifError image_path e) ;; now).

(** *** [add_watermark] (lines 32-97) *)

(** [ImageFont.truetype(path, size)]. *)
Definition ImageFont_truetype (path : string) (size : Z) : M font :=
  match truetype w path size with
  | None => ret (FreeTypeFont path size)
  | Some e => raise e
  end.

(** The font chain (lines 43-60). *)
Definition load_font (font_size : Z) : M font :=
  try_except
    (if String.eqb (os_name w) "nt"
     then ImageFont_truetype "C:/Windows/Fonts/arial.ttf" font_size
     else ImageFont_truetype "arial.ttf" font_size)
    is_IOError
    (fun _ =>
       try_except
         (ImageFont_truetype "/System/Library/Fonts/PingFang.ttc" font_size)
         is_IOError
         (fun _ =>
            try_except
              (ImageFont_truetype
                 "/usr/share/fonts/truetype/dejavu/DejaVuSans.ttf" font_size)
              is_IOError
              (fun _ => print WarnDefaultFont ;; ret DefaultFont))).

(** The size of the text (lines 64-71). *)
Definition measure_text (f : font) (text : string) : M (Z * Z) :=
  try_except
    (bbox <- lift (getbbox w f text) ;;
     let '(b0, b1, b2, b3) := bbox in
     ret (b2 - b0, b3 - b1))
    is_AttributeError
    (fun _ => lift (textsize w f text)).

(** Where the text goes (lines 74-83). [//] of Python is [Z.div]: both
    round towards minus infinity. *)
Definition text_origin (position : string) (width height : Z)
    (text_width text_height : Z) : Z * Z :=
  if String.eqb position "top_left" then (10, 10)
  else if String.eqb position "top_right"
  then (width - text_width - 10, 10)
  else if String.eqb position "bottom_left"
  then (10, height - text_height - 10)
  else if String.eqb position "center"
  then ((width - text_width) / 2, (height - text_height) / 2)
  else (width - text_width - 10, height - text_height - 10).

(** [im.convert(m)]. *)
Definition convert (m : mode) (im : image) : image :=
  {| im_width := im_width im; im_height := im_height im;
     im_mode := m; im_data := PxConvert m (im_data im) |}.

(** [Image.new(m, size, color)]. *)
Definition Image_new (m : mode) (size : Z * Z) (color : list Z) : image :=
  {| im_width := fst size; im_height := snd size;
     im_mode := m; im_data := PxFill color |}.

(** [ImageDraw.Draw(layer).text(xy, text, font=f, fill=fill)]: the layer
    is changed in place; here the changed layer is the result. *)
Definition draw_text (layer : image) (xy : Z * Z) (text : string)
    (f : font) (fill : list Z) : image :=
  {| im_width := im_width layer; im_height := im_height layer;
     im_mode := im_mode layer;
     im_data := PxText (im_data layer) xy text f fill |}.

Definition is_RGBA (m : mode) : bool :=
  match m with ModeRGBA => true | _ => false end.

(** [Image.alpha_composite(im1, im2)]: both RGBA and of one size, or
    [ValueError]. *)
Definition alpha_composite (im1 im2 : image) : M image :=
  if is_RGBA (im_mode im1) && is_RGBA (im_mode im2)
     && (im_width im1 =? im_width im2) && (im_height im1 =? im_height im2)
  then ret {| im_width := im_width im1; im_height := im_height im1;
              im_mode := ModeRGBA;
              im_data := PxOver (im_data im1) (im_data im2) |}
  else raise ValueError.

(** [im.save(path)]. *)
Definition Image_save (im : image) (path : string) : M unit := fun st =>
  match save w path im with
  | SaveOk => (Ok tt, [EvSave path im], st)
  | SaveFails e leftover =>
      (Raise e, if leftover then [EvPartial path] else [], st)
  end.

Definition add_watermark (image_path output_path text : string)
    (font_size : Z) (font_color : list Z) (position : string)
    (opacity : Z) : M bool :=
  emit (EvCompositor image_path output_path text font_size font_color
          position opacity) ;;
  try_except
    (opened <- lift (image_open w image_path) ;;
     let image := convert ModeRGBA opened in
     let watermark_layer :=
       Image_new ModeRGBA (im_width image, im_height image) [0; 0; 0; 0] in
     f <- load_font font_size ;;
     extent <- measure_text f text ;;
     let '(text_width, text_height) := extent in
     let xy := text_origin position (im_width image) (im_height image)
                 text_width text_height in
     let watermark_layer :=
       draw_text watermark_layer xy text f (font_color ++ [opacity]) in
     combined <- alpha_composite image watermark_layer ;;
     Image_save (convert ModeRGB combined) output_path ;;
     print (Saved output_path) ;;
     ret true)
    is_Exception
    (fun e => print (ProcessError image_path e) ;; ret false).

(** *** [process_single_file] and [process_directory] (lines 169-225) *)

Definition image_extensions : list string :=
  [".jpg"; ".jpeg"; ".png"; ".bmp"; ".gif"; ".tiff"].

(** [ext in image_extensions] for [_, ext = os.path.splitext(p.lower())]. *)
Definition has_image_extension (p : string) : bool :=
  let ext := snd (OsPath.splitext (PyStr.lower p)) in
  PyStr.mem ext image_extensions.

(** [os.makedirs(path, exist_ok=True)]. *)
Definition os_makedirs (path : string) : M unit :=
  match makedirs w path with
  | None => emit (EvMakedirs path)
  | Some e => raise e
  end.

Definition date_format : string := "%Y-%m-%d".

(** [os.path.join(dir_path, f"{os.path.basename(dir_path)}_watermark")]
    (lines 183 and 199). *)
Definition output_dir_of (dir_path : string) : string :=
  OsPath.join dir_path (OsPath.basename dir_path +:+ "_watermark").

Definition process_single_file (file_path : string) (font_size : Z)
    (font_color : list Z) (position : string) (opacity : Z) : M unit :=
  if negb (has_image_extension file_path)
  then print (SkipNonImage file_path)
  else
    let dir_path := OsPath.dirname file_path in
    let file_name := OsPath.basename file_path in
    let output_dir := output_dir_of dir_path in
    os_makedirs output_dir ;;
    datetime_obj <- get_exif_datetime file_path ;;
    let watermark_text := strftime w datetime_obj date_format in
    let output_path := OsPath.join output_dir file_name in
    add_watermark file_path output_path watermark_text font_size
      font_color position opacity ;;
    ret tt.

(** The body of the loop of [process_directory] (lines 204-225). *)
Definition process_entry (dir_path output_dir : string) (font_size : Z)
    (font_color : list Z) (position : string) (opacity : Z)
    (file_name : string) : M unit :=
  let file_path := OsPath.join dir_path file_name in
  if path_isdir w file_path then ret tt
  else if negb (has_image_extension file_name)
  then print (SkipNonImage file_name)
  else
    datetime_obj <- get_exif_datetime file_path ;;
    let watermark_text := strftime w datetime_obj date_format in
    let output_path := OsPath.join output_dir file_name in
    add_watermark file_path output_path watermark_text font_size
      font_color position opacity ;;
    ret tt.

Definition process_directory (dir_path : string) (font_size : Z)
    (font_color : list Z) (position : string) (opacity : Z) : M unit :=
  let output_dir := output_dir_of dir_path in
  os_makedirs output_dir ;;
  entries <- lift (listdir w dir_path) ;;
  for_each entries
    (process_entry dir_path output_dir font_size font_color position
       opacity).

(** *** [main] (lines 99-167) *)

Definition default_font_size : Z := 20.
Definition default_font_color : string := "white".
Definition default_position : string := "bottom_right".
Definition default_opacity : Z := 128.

Definition valid_positions : list string :=
  ["top_left"; "top_right"; "bottom_left"; "bottom_right"; "center"].

Definition nonempty (s : string) : bool := negb (String.eqb s "").

(** [0 <= c <= 255]. *)
Definition in_byte_range (c : Z) : bool := (0 <=? c) && (c <=? 255).

(** The position check (lines 125-128). *)
Definition check_position (position : string) : M string :=
  if negb (PyStr.mem position valid_positions)
  then print (WarnPosition position) ;; ret default_position
  else ret position.

(** The opacity check (lines 131-133). *)
Definition check_opacity (opacity : Z) : M Z :=
  if negb (in_byte_range opacity)
  then print (WarnOpacity opacity) ;; ret default_opacity
  else ret opacity.

(** The colour (lines 136-154). *)
Definition parse_color (font_color_str : string) : M (list Z) :=
  if String.eqb (PyStr.lower font_color_str) "white" then ret [255; 255; 255]
  else if String.eqb (PyStr.lower font_color_str) "black" then ret [0; 0; 0]
  else if String.eqb (PyStr.lower font_color_str) "red" then ret [255; 0; 0]
  else if String.eqb (PyStr.lower font_color_str) "green" then ret [0; 255; 0]
  else if String.eqb (PyStr.lower font_color_str) "blue" then ret [0; 0; 255]
  else
    try_except
      (font_color <- map_M int_of (PyStr.split "," font_color_str) ;;
       if negb (length font_color =? 3)%nat
          || negb (forallb in_byte_range font_color)
       then raise ValueError
       else ret font_color)
      is_ValueError
      (fun _ => print (WarnColor font_color_str) ;; ret [255; 255; 255]).

(** The path check and the choice of the mode (lines 157-167). *)
Definition dispatch (image_path : string) (font_size : Z)
    (font_color : list Z) (position : string) (opacity : Z) : M unit :=
  if negb (path_exists w image_path)
  then print (ErrorNoPath image_path)
  else if path_isfile w image_path
  then process_single_file image_path font_size font_color position opacity
  else process_directory image_path font_size font_color position opacity.

Definition main : M unit :=
  print Banner ;;
  image_path <- input_strip PromptPath ;;
  font_size_input <- input_strip PromptFontSize ;;
  font_size <- (if nonempty font_size_input then int_of font_size_input
                else ret default_font_size) ;;
  font_color_input <- input_strip PromptFontColor ;;
  let font_color_str :=
    if nonempty font_color_input then font_color_input
    else default_font_color in
  position_input <- input_strip PromptPosition ;;
  let position :=
    if nonempty position_input then position_input
    else default_position in
  opacity_input <- input_strip PromptOpacity ;;
  opacity <- (if nonempty opacity_input then int_of opacity_input
              else ret default_opacity) ;;
  position <- check_position position ;;
  opacity <- check_opacity opacity ;;
  font_color <- parse_color font_color_str ;;
  dispatch image_path font_size font_color position opacity.

End Program.

(* ===================================================================== *)
(** ** Reading a run *)
(* ===================================================================== *)

Definition result_of {A} (x : result A * list event * state) : result A :=
  x.1.1.
Definition trace_of {A} (x : result A * list event * state) : list event :=
  x.1.2.
Definition state_of {A} (x : result A * list event * state) : state := x.2.

(** The files handed to the compositor, in order. *)
Fixpoint compositor_inputs (tr : list event) : list string :=
  match tr with
  | [] => []
  | EvCompositor image_path _ _ _ _ _ _ :: rest =>
      image_path :: compositor_inputs rest
  | _ :: rest => compositor_inputs rest
  end.

Definition is_compositor (e : event) : bool :=
  match e with EvCompositor _ _ _ _ _ _ _ => true | _ => false end.

Definition is_print (e : event) : bool :=
  match e with EvPrint _ => true | _ => false end.

(** The event leaves something in the file system. *)
Definition touches_disk (e : event) : bool :=
  match e with
  | EvMakedirs _ | EvSave _ _ | EvPartial _ => true
  | _ => false
  end.

(** A computation whose events all satisfy [inv] and whose value, when it
    returns one, satisfies [post]. *)
Definition obeys {A} (m : M A) (inv : event -> Prop) (post : A -> Prop)
    : Prop :=
  forall st,
    Forall inv (trace_of (m st))
    /\ (forall a, result_of (m st) = Ok a -> post a).

(** A computation that returns a value from every state. *)
Definition never_raises {A} (m : M A) : Prop :=
  forall st, exists a, result_of (m st) = Ok a.

(** *** The style, as the specification words it *)

Definition named_colors : list string :=
  ["white"; "black"; "red"; "green"; "blue"].

(** One of the five colour names, in any letter case. *)
Definition is_named_color (s : string) : bool :=
  PyStr.mem (PyStr.lower s) named_colors.

(** A comma-separated triple of exactly three integers, each in
    [0, 255]. *)
Definition is_rgb_triple (s : string) : bool :=
  match map PyStr.int (PyStr.split "," s) with
  | [Some r; Some g; Some b] =>
      in_byte_range r && in_byte_range g && in_byte_range b
  | _ => false
  end.

(** Colour, position and opacity in range. *)
Definition style_in_range (font_color : list Z) (position : string)
    (opacity : Z) : Prop :=
  length font_color = 3%nat
  /\ Forall (fun c => 0 <= c <= 255) font_color
  /\ position ∈ valid_positions
  /\ 0 <= opacity <= 255.

(** Every entry into the compositor has its style in range. *)
Definition compositor_in_range (e : event) : Prop :=
  match e with
  | EvCompositor _ _ _ _ font_color position opacity =>
      style_in_range font_color position opacity
  | _ => True
  end.

(** The same with the font size positive as well. *)
Definition compositor_in_range_positive (e : event) : Prop :=
  match e with
  | EvCompositor _ _ _ font_size font_color position opacity =>
      0 < font_size /\ style_in_range font_color position opacity
  | _ => True
  end.

(** The console input of a run: the five answers. *)
Definition answers (image_path font_size font_color position opacity : string)
    : state :=
  {| st_stdin := [image_path; font_size; font_color; position; opacity];
     st_clock := 0 |}.

(** The value of a numeric answer: its default when left empty. *)
Definition numeric_answer (line : string) (default : Z) : option Z :=
  if nonempty (PyStr.strip line) then PyStr.int (PyStr.strip line)
  else Some default.

(** The value of a textual answer: its default when left empty. *)
Definition text_answer (line : string) (default : string) : string :=
  if nonempty (PyStr.strip line) then PyStr.strip line else default.

(* ===================================================================== *)
(** ** Sample worlds *)
(* ===================================================================== *)

Module Sample.

Definition two_digits (a b : ascii) : option Z :=
  if PyStr.isdigit a && PyStr.isdigit b
  then Some (10 * (PyStr.code a - 48) + (PyStr.code b - 48))
  else None.

Definition between (lo hi : Z) (o : option Z) : option Z :=
  match o with
  | Some z => if (lo <=? z) && (z <=? hi) then Some z else None
  | None => None
  end.

(** A strict reader of [YYYY:MM:DD HH:MM:SS], standing for
    [datetime.strptime] in the sample worlds. *)
Definition read_exif_date (s fmt : string) : option datetime :=
  match s with
  | String y1 (String y2 (String y3 (String y4 (String ":"
    (String m1 (String m2 (String ":" (String d1 (String d2 (String " "
    (String h1 (String h2 (String ":" (String n1 (String n2 (String ":"
    (String s1 (String s2 EmptyString)))))))))))))))))) =>
      match two_digits y1 y2, two_digits y3 y4,
            between 1 12 (two_digits m1 m2), between 1 31 (two_digits d1 d2),
            between 0 23 (two_digits h1 h2), between 0 59 (two_digits n1 n2),
            between 0 59 (two_digits s1 s2) with
      | Some ya, Some yb, Some mo, Some da, Some ho, Some mi, Some se =>
          Some (mk_datetime (100 * ya + yb) mo da ho mi se)
      | _, _, _, _, _, _, _ => None
      end
  | _ => None
  end.

Definition digit (z : Z) : ascii := PyStr.chr (48 + z mod 10).

(** [YYYY-MM-DD], standing for [strftime]. *)
Definition print_date (d : datetime) (fmt : string) : string :=
  let y := dt_year d in let m := dt_month d in let a := dt_day d in
  String (digit (y / 1000)) (String (digit (y / 100)) (String (digit (y / 10))
  (String (digit y) (String "-" (String (digit (m / 10)) (String (digit m)
  (String "-" (String (digit (a / 10)) (String (digit a) "")))))))))%string.

Definition photos : string := "/data/photos".

(** ["sub.png"] is a directory whose name looks like an image. *)
Definition entries : list string :=
  ["a.JPG"; "notes.txt"; "sub.png"; "photos_watermark"; "b.png"].

Definition tags_a : gmap string string :=
  <["EXIF DateTimeDigitized" := "2021:02:03 04:05:06"]>
    (<["EXIF DateTimeOriginal" := "0000:00:00 00:00:00"]> ∅).

Definition tags_both : gmap string string :=
  <["EXIF DateTimeDigitized" := "2021:02:03 04:05:06"]>
    (<["EXIF DateTimeOriginal" := "2020:12:31 23:59:58"]> ∅).

Definition dejavu : string :=
  "/usr/share/fonts/truetype/dejavu/DejaVuSans.ttf".

Definition world : World :=
  {| os_name := "posix";
     path_exists p :=
       PyStr.mem p [photos; "/data/photos/a.JPG"; "/data/photos/notes.txt";
                    "/data/photos/sub.png"; "/data/photos/b.png";
                    "/data/photos/c.jpg"];
     path_isfile p :=
       PyStr.mem p ["/data/photos/a.JPG"; "/data/photos/notes.txt";
                    "/data/photos/b.png"; "/data/photos/c.jpg"];
     path_isdir p :=
       PyStr.mem p [photos; "/data/photos/sub.png";
                    "/data/photos/photos_watermark"];
     listdir p := if String.eqb p photos then Ok entries else Raise OSError;
     makedirs _ := None;
     getmtime _ := Ok 1700000000;
     fromtimestamp _ := Ok (mk_datetime 2023 11 14 22 13 20);
     clock n := mk_datetime 2026 1 1 0 0 (Z.of_nat n);
     strptime := read_exif_date;
     strftime := print_date;
     exif_tags p :=
       if String.eqb p "/data/photos/a.JPG" then Ok tags_a
       else if String.eqb p "/data/photos/c.jpg" then Ok tags_both
       else if String.eqb p "/data/photos/b.png" then Ok ∅
       else Raise OSError;
     image_open p :=
       if String.eqb p "/data/photos/a.JPG" || String.eqb p "/data/photos/c.jpg"
       then Ok (mk_image 100 50 ModeRGB (PxDecoded p))
       else Raise OSError;
     truetype p size :=
       if size <=? 0 then Some ValueError
       else if String.eqb p dejavu then None else Some OSError;
     getbbox _ _ := Ok (0, 2, 20, 12);
     textsize _ _ := Ok (20, 10);
     save _ _ := SaveOk |}.

(** The same world with a disk on which every write fails midway. *)
Definition full_disk : World :=
  {| os_name := os_name world;
     path_exists := path_exists world;
     path_isfile := path_isfile world;
     path_isdir := path_isdir world;
     listdir := listdir world;
     makedirs := makedirs world;
     getmtime := getmtime world;
     fromtimestamp := fromtimestamp world;
     clock := clock world;
     strptime := read_exif_date;
     strftime := print_date;
     exif_tags := exif_tags world;
     image_open := image_open world;
     truetype := truetype world;
     getbbox := getbbox world;
     textsize := textsize world;
     save _ _ := SaveFails OSError true |}.

(** The same world with files stamped far beyond the year 9999:
    [datetime.fromtimestamp] raises [ValueError] for such a stamp. *)
Definition far_future : World :=
  {| os_name := os_name world;
     path_exists := path_exists world;
     path_isfile := path_isfile world;
     path_isdir := path_isdir world;
     listdir := listdir world;
     makedirs := makedirs world;
     getmtime _ := Ok 1000000000000;
     fromtimestamp _ := Raise ValueError;
     clock := clock world;
     strptime := read_exif_date;
     strftime := print_date;
     exif_tags := exif_tags world;
     image_open := image_open world;
     truetype := truetype world;
     getbbox := getbbox world;
     textsize := textsize world;
     save := save world |}.

Definition idle : state := {| st_stdin := []; st_clock := 0 |}.

End Sample.

(* ===================================================================== *)
(** ** The shape of a run *)
(* ===================================================================== *)

Section Shapes.

Variable w : World.

(** A tag that the loop of [get_exif_datetime] passes over: absent, or
    present with a value that does not parse. *)
Definition unusable (tags : gmap string string) (tag : string) : Prop :=
  match tags !! tag with
  | None => True
  | Some s => strptime w s exif_format = None
  end.

(** What the handler of [get_exif_datetime] leaves: the log line and the
    reading of the clock. *)
Definition clock_fallback (p : string) (e : exn) (st : state)
    : result datetime * list event * state :=
  (Ok (clock w (st_clock st)), [EvPrint (ExifError p e)],
   {| st_stdin := st_stdin st; st_clock := S (st_clock st) |}).

(** The picture [add_watermark] saves for a source image [src], a font
    [f] and a text of extent [tw] x [th]. *)
Definition watermarked (src : image) (f : font) (text position : string)
    (font_color : list Z) (opacity tw th : Z) : image :=
  {| im_width := im_width src; im_height := im_height src;
     im_mode := ModeRGB;
     im_data :=
       PxConvert ModeRGB
         (PxOver (PxConvert ModeRGBA (im_data src))
            (PxText (PxFill [0; 0; 0; 0])
               (text_origin position (im_width src) (im_height src) tw th)
               text f (font_color ++ [opacity]))) |}.

(** Where the text of a saved picture was drawn. *)
Definition drawn_at (im : image) : option (Z * Z) :=
  match im_data im with
  | PxConvert _ (PxOver _ (PxText _ xy _ _ _)) => Some xy
  | _ => None
  end.

(** An event of a failed call of the compositor: a printed line, or what
    a failed [save] left at [output_path]. *)
Definition failure_event (output_path : string) (e : event) : Prop :=
  is_print e = true
  \/ (e = EvPartial output_path
      /\ exists im err, save w output_path im = SaveFails err true).

(** An event of the compositor after its entry: a printed line or a
    write, whole or partial, at [output_path]. *)
Definition compositor_event (output_path : string) (e : event) : Prop :=
  is_print e = true \/ e = EvPartial output_path
  \/ exists im, e = EvSave output_path im.

(** The events of watermarking one file: the lines of the date resolver,
    the entry into the compositor, the events of the compositor. *)
Inductive watermarking (image_path output_path : string) (font_size : Z)
    (font_color : list Z) (position : string) (opacity : Z)
    : list event -> Prop :=
| watermarking_intro pre text tr :
    Forall (fun e => is_print e = true) pre ->
    Forall (compositor_event output_path) tr ->
    watermarking image_path output_path font_size font_color position
      opacity
      (pre ++ EvCompositor image_path output_path text font_size
                font_color position opacity :: tr).

(** The events of one turn of the loop of [process_directory]. *)
Definition entry_trace (dir_path output_dir : string) (font_size : Z)
    (font_color : list Z) (position : string) (opacity : Z)
    (file_name : string) (tr : list event) : Prop :=
  if path_isdir w (OsPath.join dir_path file_name) then tr = []
  else if has_image_extension file_name
  then watermarking (OsPath.join dir_path file_name)
         (OsPath.join output_dir file_name) font_size font_color position
         opacity tr
  else tr = [EvPrint (SkipNonImage file_name)].

(** The entries of a listing that directory mode hands to the
    compositor. *)
Definition selected (dir_path : string) (file_name : string) : bool :=
  negb (path_isdir w (OsPath.join dir_path file_name))
  && has_image_extension file_name.

End Shapes.

(** The style after validation, as the specification words it. *)
Definition coerce_position (position : string) : string :=
  if PyStr.mem position valid_positions then position else default_position.

Definition coerce_opacity (opacity : Z) : Z :=
  if in_byte_range opacity then opacity else default_opacity.

Definition named_color_value (name : string) : list Z :=
  if String.eqb name "white" then [255; 255; 255]
  else if String.eqb name "black" then [0; 0; 0]
  else if String.eqb name "red" then [255; 0; 0]
  else if String.eqb name "green" then [0; 255; 0]
  else [0; 0; 255].

Definition coerce_color (font_color_str : string) : list Z :=
  if is_named_color font_color_str
  then named_color_value (PyStr.lower font_color_str)
  else match map PyStr.int (PyStr.split "," font_color_str) with
       | [Some r; Some g; Some b] =>
           if in_byte_range r && in_byte_range g && in_byte_range b
           then [r; g; b] else [255; 255; 255]
       | _ => [255; 255; 255]
       end.

(** The warnings of the validation, in the order they are printed. *)
Definition warnings (position : string) (opacity : Z)
    (font_color_str : string) : list event :=
  (if PyStr.mem position valid_positions then []
   else [EvPrint (WarnPosition position)])
  ++ (if in_byte_range opacity then []
      else [EvPrint (WarnOpacity opacity)])
  ++ (if is_named_color font_color_str || is_rgb_triple font_color_str
      then [] else [EvPrint (WarnColor font_color_str)]).

(** The lines [main] prints before it validates anything. *)
Definition preamble : list event :=
  [EvPrint Banner; EvPrint (Prompt PromptPath);
   EvPrint (Prompt PromptFontSize); EvPrint (Prompt PromptFontColor);
   EvPrint (Prompt PromptPosition); EvPrint (Prompt PromptOpacity)].

(** An event of a run whose output directory is [output_dir], on the
    files named [names], [input_of n] being the path of the input file of
    name [n]: whatever reaches the disk is the output directory itself or a
    file in it that bears the name of an input file, and the compositor is
    handed that input file and that output file. *)
Definition lands_in (input_of : string -> string) (output_dir : string)
    (names : list string) (e : event) : Prop :=
  match e with
  | EvPrint _ => True
  | EvMakedirs p => p = output_dir
  | EvCompositor image_path output_path _ _ _ _ _ =>
      exists n, n ∈ names /\ image_path = input_of n
                /\ output_path = OsPath.join output_dir n
  | EvSave p _ | EvPartial p =>
      exists n, n ∈ names /\ p = OsPath.join output_dir n
  end.

(** Every entry into the compositor carries this style. *)
Definition carries_style (font_size : Z) (font_color : list Z)
    (position : string) (opacity : Z) (e : event) : Prop :=
  match e with
  | EvCompositor _ _ _ fs col pos op =>
      fs = font_size /\ col = font_color /\ pos = position /\ op = opacity
  | _ => True
  end.

(** A single path component: not empty, no separator. *)
Definition plain_name (n : string) : bool :=
  nonempty n && (PyStr.rfind OsPath.sep n =? -1).

(** A directory path written without a trailing separator. *)
Definition plain_dir (d : string) : bool :=
  nonempty d && negb (PyStr.endswith OsPath.sep d).

(** The lines printed for the entries that are neither directories nor
    images. *)
Definition skip_lines (w : World) (dir_path : string)
    (entries : list string) : list event :=
  map (fun n => EvPrint (SkipNonImage n))
    (List.filter (fun n => negb (path_isdir w (OsPath.join dir_path n)))
       entries).

(* ===================================================================== *)
(** ** The parts of the compositor, as functions of the world *)
(* ===================================================================== *)

(** The font files [load_font] tries, in order (lines 45-56). *)
Definition font_candidates (w : World) : list string :=
  [if String.eqb (os_name w) "nt" then "C:/Windows/Fonts/arial.ttf"
   else "arial.ttf";
   "/System/Library/Fonts/PingFang.ttc";
   "/usr/share/fonts/truetype/dejavu/DejaVuSans.ttf"].

(** A list of candidate files tried one after the other: the first that
    loads is the font; an [IOError] passes on to the next; any other error
    ends the search; with no candidate left the built-in font is taken and
    the warning printed. *)
Fixpoint first_font (w : World) (size : Z) (candidates : list string)
    : result font * list event :=
  match candidates with
  | [] => (Ok DefaultFont, [EvPrint WarnDefaultFont])
  | path :: rest =>
      match truetype w path size with
      | None => (Ok (FreeTypeFont path size), [])
      | Some e => if is_IOError e then first_font w size rest
                  else (Raise e, [])
      end
  end.

(** The extent of a text: width and height of its bounding box, or what
    the legacy [textsize] gives when the font has no [getbbox]. *)
Definition text_extent (w : World) (f : font) (text : string)
    : result (Z * Z) :=
  match getbbox w f text with
  | Ok (b0, b1, b2, b3) => Ok (b2 - b0, b3 - b1)
  | Raise e => if is_AttributeError e then textsize w f text else Raise e
  end.

(** A computation that leaves the console input as it found it. *)
Definition keeps_stdin {A} (m : M A) : Prop :=
  forall st, st_stdin (state_of (m st)) = st_stdin st.

(* ===================================================================== *)
(** ** Rules for reasoning about runs *)
(* ===================================================================== *)

Section Rules.

Context {A B : Type}.

Lemma run_bind (m : M A) (k : A -> M B) st :
  bind m k st =
  match m st with
  | (Ok a, ev, st') =>
      (result_of (k a st'), ev ++ trace_of (k a st'), state_of (k a st'))
  | (Raise e, ev, st') => (Raise e, ev, st')
  end.
Proof.
  unfold bind, result_of, trace_of, state_of.
  destruct (m st) as [[[a|e] ev] st']; [|reflexivity].
  destruct (k a st') as [[r ev'] st'']. reflexivity.
Qed.

Lemma run_try (body : M A) catches handler st :
  try_except body catches handler st =
  match body st with
  | (Raise e, ev, st') =>
      if catches e
      then (result_of (handler e st'), ev ++ trace_of (handler e st'),
            state_of (handler e st'))
      else (Raise e, ev, st')
  | (Ok a, ev, st') => (Ok a, ev, st')
  end.
Proof.
  unfold try_except, result_of, trace_of, state_of.
  destruct (body st) as [[[a|e] ev] st']; [reflexivity|].
  destruct (catches e); [|reflexivity].
  destruct (handler e st') as [[r ev'] st'']. reflexivity.
Qed.

Lemma obeys_ret (a : A) (inv : event -> Prop) (post : A -> Prop) :
  post a -> obeys (ret a) inv post.
Proof.
  intros Ha st. split; [constructor|].
  intros a' E. cbn in E. by inversion E; subst.
Qed.

Lemma obeys_raise (e : exn) (inv : event -> Prop) (post : A -> Prop) :
  obeys (raise e) inv post.
Proof. intros st. split; [constructor|]. intros a E. discriminate E. Qed.

Lemma obeys_lift (r : result A) (inv : event -> Prop) (post : A -> Prop) :
  (forall a, r = Ok a -> post a) -> obeys (lift r) inv post.
Proof. intros H st. split; [constructor|]. intros a E. by apply H. Qed.

Lemma obeys_bind (m : M A) (k : A -> M B) inv (mid : A -> Prop)
    (post : B -> Prop) :
  obeys m inv mid ->
  (forall a, mid a -> obeys (k a) inv post) ->
  obeys (bind m k) inv post.
Proof.
  intros Hm Hk st. rewrite run_bind.
  destruct (Hm st) as [Htr Hres].
  destruct (m st) as [[[a|e] ev] st']; cbn in *.
  - destruct (Hk a (Hres a eq_refl) st') as [Htr' Hres'].
    split; [by apply Forall_app|]. exact Hres'.
  - split; [exact Htr|]. intros b E. discriminate E.
Qed.

Lemma obeys_try (body : M A) catches handler inv (post : A -> Prop) :
  obeys body inv post ->
  (forall e, obeys (handler e) inv post) ->
  obeys (try_except body catches handler) inv post.
Proof.
  intros Hb Hh st. rewrite run_try.
  destruct (Hb st) as [Htr Hres].
  destruct (body st) as [[[a|e] ev] st']; cbn in *.
  - split; [exact Htr|exact Hres].
  - destruct (catches e).
    + destruct (Hh e st') as [Htr' Hres'].
      split; [by apply Forall_app|exact Hres'].
    + split; [exact Htr|]. intros b E. discriminate E.
Qed.

Lemma obeys_weaken (m : M A) (inv inv' : event -> Prop)
    (post post' : A -> Prop) :
  obeys m inv post ->
  (forall e, inv e -> inv' e) -> (forall a, post a -> post' a) ->
  obeys m inv' post'.
Proof.
  intros Hm Hi Hp st. destruct (Hm st) as [Htr Hres]. split.
  - eapply Forall_impl; eauto.
  - intros a E. auto.
Qed.

Lemma never_raises_bind (m : M A) (k : A -> M B) :
  never_raises m -> (forall a, never_raises (k a)) -> never_raises (bind m k).
Proof.
  intros Hm Hk st. rewrite run_bind.
  destruct (Hm st) as [a Ha].
  destruct (m st) as [[r ev] st']; cbn in Ha; subst r.
  destruct (Hk a st') as [b Hb]. exists b. exact Hb.
Qed.

Lemma never_raises_try (body : M A) handler :
  (forall e, never_raises (handler e)) ->
  never_raises (try_except body is_Exception handler).
Proof.
  intros Hh st. rewrite run_try.
  destruct (body st) as [[[a|e] ev] st']; cbn.
  - by exists a.
  - destruct (Hh e st') as [a Ha]. by exists a.
Qed.

End Rules.

Lemma obeys_emit (e : event) (inv : event -> Prop) (post : unit -> Prop) :
  inv e -> post tt -> obeys (emit e) inv post.
Proof.
  intros He Hp st. split; [by repeat constructor|].
  intros [] _. exact Hp.
Qed.

Lemma obeys_for_each {A} (xs : list A) (body : A -> M unit) inv
    (P : A -> Prop) :
  Forall P xs ->
  (forall x, P x -> obeys (body x) inv (fun _ => True)) ->
  obeys (for_each xs body) inv (fun _ => True).
Proof.
  intros Hxs Hbody. induction Hxs as [|x xs Hx _ IH]; cbn.
  - by apply obeys_ret.
  - eapply obeys_bind; [by apply Hbody|]. intros _ _. exact IH.
Qed.

Lemma never_raises_ret {A} (a : A) : never_raises (ret a).
Proof. intros st. by exists a. Qed.

Lemma never_raises_emit (e : event) : never_raises (emit e).
Proof. intros st. by exists tt. Qed.

(* ===================================================================== *)
(** ** The date resolver *)
(* ===================================================================== *)

Section Resolver.

Variable w : World.

Lemma scan_tags_skips tags pre rest :
  Forall (unusable w tags) pre ->
  scan_tags w tags (pre ++ rest) = scan_tags w tags rest.
Proof.
  induction 1 as [|tag pre Htag _ IH]; [reflexivity|].
  cbn. unfold unusable in Htag.
  destruct (tags !! tag) as [s|]; [|exact IH].
  by rewrite Htag.
Qed.

Lemma scan_tags_hit tags tag rest s d :
  tags !! tag = Some s -> strptime w s exif_format = Some d ->
  scan_tags w tags (tag :: rest) = Some d.
Proof. intros Hs Hd. cbn. by rewrite Hs, Hd. Qed.

Lemma scan_tags_none tags names :
  Forall (unusable w tags) names -> scan_tags w tags names = None.
Proof.
  intros H. rewrite <- (app_nil_r names). by rewrite scan_tags_skips.
Qed.

Lemma get_exif_datetime_found p tags d st :
  exif_tags w p = Ok tags ->
  scan_tags w tags datetime_tags = Some d ->
  get_exif_datetime w p st = (Ok d, [], st).
Proof.
  intros Ht Hs. unfold get_exif_datetime.
  rewrite run_try, run_bind. unfold lift. rewrite Ht, Hs. reflexivity.
Qed.

Lemma get_exif_datetime_mtime p tags t d st :
  exif_tags w p = Ok tags ->
  scan_tags w tags datetime_tags = None ->
  getmtime w p = Ok t -> fromtimestamp w t = Ok d ->
  get_exif_datetime w p st = (Ok d, [], st).
Proof.
  intros Ht Hs Hm Hd. unfold get_exif_datetime.
  rewrite run_try, run_bind. unfold lift. rewrite Ht, Hs.
  rewrite run_bind, Hm, Hd. reflexivity.
Qed.

Lemma get_exif_datetime_unreadable p e st :
  exif_tags w p = Raise e ->
  get_exif_datetime w p st = clock_fallback w p e st.
Proof.
  intros Ht. unfold get_exif_datetime.
  rewrite run_try, run_bind. unfold lift. rewrite Ht. reflexivity.
Qed.

(** When the tags are read but the time stamp of the file is not, the
    same handler answers. *)
Lemma get_exif_datetime_no_mtime p tags e st :
  exif_tags w p = Ok tags ->
  scan_tags w tags datetime_tags = None ->
  getmtime w p = Raise e ->
  get_exif_datetime w p st = clock_fallback w p e st.
Proof.
  intros Ht Hs Hm. unfold get_exif_datetime.
  rewrite run_try, run_bind. unfold lift. rewrite Ht, Hs.
  rewrite run_bind, Hm. reflexivity.
Qed.

(** Nor is it returned when the time stamp is read but is not a date. *)
Lemma get_exif_datetime_no_date p tags t e st :
  exif_tags w p = Ok tags ->
  scan_tags w tags datetime_tags = None ->
  getmtime w p = Ok t -> fromtimestamp w t = Raise e ->
  get_exif_datetime w p st = clock_fallback w p e st.
Proof.
  intros Ht Hs Hm Hd. unfold get_exif_datetime.
  rewrite run_try, run_bind. unfold lift. rewrite Ht, Hs.
  rewrite run_bind, Hm, Hd. reflexivity.
Qed.

Lemma get_exif_datetime_returns p : never_raises (get_exif_datetime w p).
Proof.
  apply never_raises_try. intros e.
  apply never_raises_bind; [apply (never_raises_emit (EvPrint _))|].
  intros _ st. by eexists.
Qed.

Lemma get_exif_datetime_prints p :
  obeys (get_exif_datetime w p) (fun e => is_print e = true)
    (fun _ => True).
Proof.
  apply obeys_try.
  - apply obeys_bind with (mid := fun _ => True); [by apply obeys_lift|].
    intros tags _.
    destruct (scan_tags w tags datetime_tags); [by apply obeys_ret|].
    apply obeys_bind with (mid := fun _ => True); [by apply obeys_lift|].
    intros t _. by apply obeys_lift.
  - intros e. apply obeys_bind with (mid := fun _ => True);
      [by apply (obeys_emit (EvPrint _))|].
    intros _ _ st. split; [constructor|done].
Qed.

End Resolver.

(* ===================================================================== *)
(** ** The compositor *)
(* ===================================================================== *)

Section Compositor.

Variable w : World.

Lemma ImageFont_truetype_silent path size :
  obeys (ImageFont_truetype w path size) (fun e => is_print e = true)
    (fun _ => True).
Proof.
  unfold ImageFont_truetype.
  destruct (truetype w path size); [apply obeys_raise|by apply obeys_ret].
Qed.

Lemma load_font_prints font_size :
  obeys (load_font w font_size) (fun e => is_print e = true)
    (fun _ => True).
Proof.
  unfold load_font.
  apply obeys_try; [destruct (os_name w =? "nt")%string;
                    apply ImageFont_truetype_silent|].
  intros _. apply obeys_try; [apply ImageFont_truetype_silent|].
  intros _. apply obeys_try; [apply ImageFont_truetype_silent|].
  intros _. apply obeys_bind with (mid := fun _ => True);
    [by apply (obeys_emit (EvPrint _))|].
  intros _ _. by apply obeys_ret.
Qed.

Lemma measure_text_silent f text st :
  trace_of (measure_text w f text st) = [].
Proof.
  unfold measure_text. rewrite run_try, run_bind. unfold lift.
  destruct (getbbox w f text) as [[[[b0 b1] b2] b3]|e]; [reflexivity|].
  destruct (is_AttributeError e); [|reflexivity].
  cbn. by destruct (textsize w f text).
Qed.

(** Two layers of one size compose. *)
Lemma alpha_composite_same_size (a b : image) st :
  im_mode a = ModeRGBA -> im_mode b = ModeRGBA ->
  im_width b = im_width a -> im_height b = im_height a ->
  alpha_composite a b st =
  (Ok {| im_width := im_width a; im_height := im_height a;
         im_mode := ModeRGBA;
         im_data := PxOver (im_data a) (im_data b) |}, [], st).
Proof.
  intros Ha Hb Hw Hh. unfold alpha_composite.
  rewrite Ha, Hb, Hw, Hh, !Z.eqb_refl. reflexivity.
Qed.

End Compositor.
Section CompositorRuns.

Variable w : World.

(** Every run of [add_watermark], spelled out: it returns a boolean; on
    [True] the last two events are the write of the watermarked picture
    and the line that reports it; on [False] nothing but printed lines
    and, possibly, the remains of a failed write. *)
Lemma add_watermark_run image_path output_path text font_size font_color
    position opacity st :
  exists b tr st',
    add_watermark w image_path output_path text font_size font_color
      position opacity st
    = (Ok b,
       EvCompositor image_path output_path text font_size font_color
         position opacity :: tr, st')
    /\ if b
       then exists src f tw th pre s1,
           image_open w image_path = Ok src
           /\ result_of (measure_text w f text s1) = Ok (tw, th)
           /\ Forall (fun e => is_print e = true) pre
           /\ tr = pre ++
                   [EvSave output_path
                      (watermarked src f text position font_color opacity
                         tw th);
                    EvPrint (Saved output_path)]
       else Forall (failure_event w output_path) tr.
Proof.
  pose proof (load_font_prints w font_size st) as [Hf _].
  unfold add_watermark, bind, try_except, emit, lift.
  destruct (image_open w image_path) as [src|e].
  2:{ exists false. eexists. eexists. split; [reflexivity|].
      cbn. by repeat constructor; left. }
  destruct (load_font w font_size st) as [[[f|e] evf] s1]; cbn in Hf.
  2:{ exists false. eexists. eexists. split; [reflexivity|]. cbn.
      apply Forall_app. split; [|by repeat constructor; left].
      eapply Forall_impl; [exact Hf|]. intros ? ?. by left. }
  pose proof (measure_text_silent w f text s1) as Hm.
  destruct (measure_text w f text s1) as [[[[tw th]|e] evm] s2] eqn:Em;
    cbn in Hm; subst evm.
  2:{ exists false. eexists. eexists. split; [reflexivity|]. cbn.
      rewrite ?app_nil_r. apply Forall_app.
    split; [|by repeat constructor; left].
      eapply Forall_impl; [exact Hf|]. intros ? ?. by left. }
  rewrite alpha_composite_same_size by reflexivity.
  unfold Image_save.
  change (convert ModeRGB _)
    with (watermarked src f text position font_color opacity tw th).
  destruct (save w output_path
              (watermarked src f text position font_color opacity tw th))
    as [|e leftover] eqn:Es.
  - exists true. eexists. eexists. split; [reflexivity|].
    exists src, f, tw, th, evf, s1.
    split; [reflexivity|]. split; [by rewrite Em|]. split; [exact Hf|].
    cbn. by rewrite ?app_nil_r.
  - exists false. eexists. eexists. split; [reflexivity|]. cbn.
    rewrite ?app_nil_r, !Forall_app. split; [split|].
    + eapply Forall_impl; [exact Hf|]. intros ? ?. by left.
    + destruct leftover; [|constructor].
      apply Forall_cons. split; [|constructor].
      right. split; [reflexivity|]. eauto.
    + by repeat constructor; left.
Qed.

Lemma add_watermark_returns image_path output_path text font_size
    font_color position opacity :
  never_raises (add_watermark w image_path output_path text font_size
                  font_color position opacity).
Proof.
  intros st.
  destruct (add_watermark_run image_path output_path text font_size
              font_color position opacity st) as (b & tr & st' & E & _).
  exists b. by rewrite E.
Qed.

End CompositorRuns.

(* ===================================================================== *)
(** ** The two modes *)
(* ===================================================================== *)

Section Modes.

Variable w : World.

(** The tail shared by both modes (lines 187-194 and 218-225). *)
Lemma watermark_file_run file_path output_path fmt font_size font_color
    position opacity st :
  exists tr st',
    (datetime_obj <- get_exif_datetime w file_path ;;
     add_watermark w file_path output_path (strftime w datetime_obj fmt)
       font_size font_color position opacity ;;
     ret tt) st = (Ok tt, tr, st')
    /\ watermarking file_path output_path font_size font_color position
         opacity tr.
Proof.
  destruct (get_exif_datetime_returns w file_path st) as [d Hd].
  destruct (get_exif_datetime_prints w file_path st) as [Hp _].
  unfold bind at 1.
  destruct (get_exif_datetime w file_path st) as [[r pre] s1].
  cbn in Hd, Hp. subst r.
  destruct (add_watermark_run w file_path output_path (strftime w d fmt)
              font_size font_color position opacity s1)
    as (b & tr & s2 & E & Hb).
  unfold bind at 1. rewrite E. cbn.
  eexists. eexists. split; [reflexivity|].
  rewrite app_nil_r. constructor; [exact Hp|].
  destruct b.
  - destruct Hb as (src & f & tw & th & evf & s' & _ & _ & Hf & ->).
    apply Forall_app. split.
    + eapply Forall_impl; [exact Hf|]. intros ? ?. by left.
    + apply Forall_cons. split; [right; right; by eexists|].
      apply Forall_cons. split; [by left|constructor].
  - eapply Forall_impl; [exact Hb|].
    intros e [He|[He _]]; [by left|by right; left].
Qed.

Lemma process_entry_run dir_path output_dir font_size font_color position
    opacity file_name st :
  exists tr st',
    process_entry w dir_path output_dir font_size font_color position
      opacity file_name st = (Ok tt, tr, st')
    /\ entry_trace w dir_path output_dir font_size font_color position
         opacity file_name tr.
Proof.
  unfold process_entry, entry_trace.
  destruct (path_isdir w (OsPath.join dir_path file_name)).
  { by exists [], st. }
  destruct (has_image_extension file_name); cbn [negb].
  - apply watermark_file_run.
  - by exists [EvPrint (SkipNonImage file_name)], st.
Qed.

Lemma for_each_run {A} (body : A -> M unit)
    (shape : A -> list event -> Prop) :
  (forall x st, exists tr st',
      body x st = (Ok tt, tr, st') /\ shape x tr) ->
  forall xs st, exists trs st',
    for_each xs body st = (Ok tt, concat trs, st')
    /\ Forall2 shape xs trs.
Proof.
  intros Hbody xs. induction xs as [|x xs IH]; intros st.
  - exists [], st. split; [reflexivity|constructor].
  - destruct (Hbody x st) as (tr & s1 & E & Hx).
    destruct (IH s1) as (trs & s2 & E' & Hxs).
    exists (tr :: trs), s2. split; [|by constructor].
    cbn. unfold bind. by rewrite E, E'.
Qed.

Lemma process_directory_run dir_path font_size font_color position
    opacity entries st :
  makedirs w (output_dir_of dir_path) = None ->
  listdir w dir_path = Ok entries ->
  exists trs st',
    process_directory w dir_path font_size font_color position opacity st
    = (Ok tt, EvMakedirs (output_dir_of dir_path) :: concat trs, st')
    /\ Forall2 (entry_trace w dir_path (output_dir_of dir_path) font_size
                  font_color position opacity) entries trs.
Proof.
  intros Hmk Hls.
  destruct (for_each_run _ _
              (process_entry_run dir_path (output_dir_of dir_path)
                 font_size font_color position opacity) entries st)
    as (trs & st' & E & Hshape).
  exists trs, st'. split; [|exact Hshape].
  unfold process_directory, os_makedirs. rewrite Hmk.
  unfold bind at 1. cbn [emit].
  unfold bind at 1. unfold lift. rewrite Hls, E. reflexivity.
Qed.

Lemma process_directory_no_dir dir_path font_size font_color position
    opacity e st :
  makedirs w (output_dir_of dir_path) = Some e ->
  process_directory w dir_path font_size font_color position opacity st
  = (Raise e, [], st).
Proof.
  intros Hmk. unfold process_directory, os_makedirs. by rewrite Hmk.
Qed.

Lemma process_directory_no_listing dir_path font_size font_color position
    opacity e st :
  makedirs w (output_dir_of dir_path) = None ->
  listdir w dir_path = Raise e ->
  process_directory w dir_path font_size font_color position opacity st
  = (Raise e, [EvMakedirs (output_dir_of dir_path)], st).
Proof.
  intros Hmk Hls. unfold process_directory, os_makedirs. rewrite Hmk.
  unfold bind at 1. cbn [emit]. unfold bind, lift. by rewrite Hls.
Qed.

Lemma process_single_file_skip file_path font_size font_color position
    opacity st :
  has_image_extension file_path = false ->
  process_single_file w file_path font_size font_color position opacity st
  = (Ok tt, [EvPrint (SkipNonImage file_path)], st).
Proof. intros H. unfold process_single_file. by rewrite H. Qed.

Lemma process_single_file_run file_path font_size font_color position
    opacity st :
  has_image_extension file_path = true ->
  makedirs w (output_dir_of (OsPath.dirname file_path)) = None ->
  exists tr st',
    process_single_file w file_path font_size font_color position opacity
      st
    = (Ok tt, EvMakedirs (output_dir_of (OsPath.dirname file_path)) :: tr,
       st')
    /\ watermarking file_path
         (OsPath.join (output_dir_of (OsPath.dirname file_path))
            (OsPath.basename file_path))
         font_size font_color position opacity tr.
Proof.
  intros Hext Hmk.
  destruct (watermark_file_run file_path
              (OsPath.join (output_dir_of (OsPath.dirname file_path))
                 (OsPath.basename file_path))
              date_format font_size font_color position opacity st)
    as (tr & st' & E & Hshape).
  exists tr, st'. split; [|exact Hshape].
  unfold process_single_file, os_makedirs. rewrite Hext, Hmk. cbn [negb].
  unfold bind at 1. cbn [emit]. by rewrite E.
Qed.

Lemma process_single_file_no_dir file_path font_size font_color position
    opacity e st :
  has_image_extension file_path = true ->
  makedirs w (output_dir_of (OsPath.dirname file_path)) = Some e ->
  process_single_file w file_path font_size font_color position opacity st
  = (Raise e, [], st).
Proof.
  intros Hext Hmk. unfold process_single_file, os_makedirs.
  by rewrite Hext, Hmk.
Qed.

End Modes.

(* ===================================================================== *)
(** ** The driver *)
(* ===================================================================== *)

Section Driver.

Variable w : World.

Lemma check_position_run position st :
  check_position position st
  = (Ok (coerce_position position),
     if PyStr.mem position valid_positions then []
     else [EvPrint (WarnPosition position)], st).
Proof.
  unfold check_position, coerce_position.
  by destruct (PyStr.mem position valid_positions).
Qed.

Lemma check_opacity_run opacity st :
  check_opacity opacity st
  = (Ok (coerce_opacity opacity),
     if in_byte_range opacity then []
     else [EvPrint (WarnOpacity opacity)], st).
Proof.
  unfold check_opacity, coerce_opacity.
  by destruct (in_byte_range opacity).
Qed.

Lemma map_M_int_of pieces st :
  map_M int_of pieces st
  = match mapM PyStr.int pieces with
    | Some zs => (Ok zs, [], st)
    | None => (Raise ValueError, [], st)
    end.
Proof.
  induction pieces as [|p pieces IH]; [reflexivity|].
  cbn. unfold bind at 1. unfold int_of at 1.
  destruct (PyStr.int p) as [z|]; [|reflexivity].
  cbn. unfold bind at 1. rewrite IH.
  by destruct (mapM PyStr.int pieces).
Qed.

(** The pieces of a colour string are three integers, or the tuple the
    program builds from them does not exist or is not of length 3. *)
Lemma triple_or_not (pieces : list string) :
  (exists r g b,
      map PyStr.int pieces = [Some r; Some g; Some b]
      /\ mapM PyStr.int pieces = Some [r; g; b])
  \/ ((forall r g b, map PyStr.int pieces <> [Some r; Some g; Some b])
      /\ (mapM PyStr.int pieces = None
          \/ exists zs, mapM PyStr.int pieces = Some zs
                        /\ length zs <> 3%nat)).
Proof.
  destruct pieces as [|p1 [|p2 [|p3 [|p4 rest]]]]; cbn.
  - right. split; [done|]. right. by exists [].
  - right. split; [done|]. destruct (PyStr.int p1); cbn; eauto.
  - right. split; [done|].
    destruct (PyStr.int p1), (PyStr.int p2); cbn; eauto.
  - destruct (PyStr.int p1) as [r|], (PyStr.int p2) as [g|],
      (PyStr.int p3) as [b|]; cbn;
      try (right; split; [done|by left]).
    left. by exists r, g, b.
  - right. split; [done|].
    destruct (PyStr.int p1), (PyStr.int p2), (PyStr.int p3),
      (PyStr.int p4); cbn; try by left.
    destruct (mapM PyStr.int rest); cbn; [|by left].
    right. eexists. split; [reflexivity|]. cbn. lia.
Qed.

Lemma forallb_triple r g b :
  forallb in_byte_range [r; g; b]
  = in_byte_range r && in_byte_range g && in_byte_range b.
Proof. cbn. by destruct (in_byte_range r), (in_byte_range g),
                 (in_byte_range b). Qed.

Lemma parse_color_run font_color_str st :
  parse_color font_color_str st
  = (Ok (coerce_color font_color_str),
     if is_named_color font_color_str || is_rgb_triple font_color_str
     then [] else [EvPrint (WarnColor font_color_str)], st).
Proof.
  unfold parse_color, coerce_color, is_named_color, named_color_value,
    PyStr.mem, named_colors. cbn [existsb].
  destruct (PyStr.lower font_color_str =? "white")%string; [reflexivity|].
  destruct (PyStr.lower font_color_str =? "black")%string; [reflexivity|].
  destruct (PyStr.lower font_color_str =? "red")%string; [reflexivity|].
  destruct (PyStr.lower font_color_str =? "green")%string; [reflexivity|].
  destruct (PyStr.lower font_color_str =? "blue")%string; [reflexivity|].
  cbn [orb]. unfold is_rgb_triple, try_except, bind.
  rewrite map_M_int_of.
  destruct (triple_or_not (PyStr.split "," font_color_str))
    as [(r & g & b & Emap & EM)|[Hno [EM|(zs & EM & Hlen)]]].
  - rewrite Emap, EM. cbn [length Nat.eqb negb orb].
    rewrite forallb_triple.
    by destruct (in_byte_range r && in_byte_range g && in_byte_range b).
  - rewrite EM. cbn.
    destruct (map PyStr.int (PyStr.split "," font_color_str))
      as [|[r|] [|[g|] [|[b|] [|? ?]]]]; try reflexivity.
    by destruct (Hno r g b).
  - rewrite EM.
    assert ((length zs =? 3)%nat = false) as -> by by apply Nat.eqb_neq.
    cbn.
    destruct (map PyStr.int (PyStr.split "," font_color_str))
      as [|[r|] [|[g|] [|[b|] [|? ?]]]]; try reflexivity.
    by destruct (Hno r g b).
Qed.

Lemma numeric_answer_run line default z st :
  numeric_answer line default = Some z ->
  (if nonempty (PyStr.strip line) then int_of (PyStr.strip line)
   else ret default) st = (Ok z, [], st).
Proof.
  unfold numeric_answer, int_of.
  destruct (nonempty (PyStr.strip line)).
  - by intros ->.
  - by intros [= ->].
Qed.

Lemma numeric_answer_bad line default st :
  numeric_answer line default = None ->
  (if nonempty (PyStr.strip line) then int_of (PyStr.strip line)
   else ret default) st = (Raise ValueError, [], st).
Proof.
  unfold numeric_answer, int_of.
  destruct (nonempty (PyStr.strip line)); [by intros ->|done].
Qed.

(** A run of [main] on five answers of which the two numbers read as
    integers: the prompts, the warnings, then [dispatch] on the coerced
    style. *)
Lemma main_run l1 l2 l3 l4 l5 rest clk fsz op :
  numeric_answer l2 default_font_size = Some fsz ->
  numeric_answer l5 default_opacity = Some op ->
  let position := text_answer l4 default_position in
  let color := text_answer l3 default_font_color in
  let run :=
    dispatch w (PyStr.strip l1) fsz (coerce_color color)
      (coerce_position position) (coerce_opacity op)
      {| st_stdin := rest; st_clock := clk |} in
  main w {| st_stdin := l1 :: l2 :: l3 :: l4 :: l5 :: rest;
            st_clock := clk |}
  = (result_of run, preamble ++ warnings position op color ++ trace_of run,
     state_of run).
Proof.
  intros Hfs Hop position color run.
  unfold main. unfold bind at 1. cbn [print emit].
  unfold bind at 1. cbn [input_strip st_stdin st_clock].
  unfold bind at 1. cbn [input_strip st_stdin st_clock].
  unfold bind at 1. rewrite (numeric_answer_run _ _ _ _ Hfs).
  unfold bind at 1. cbn [input_strip st_stdin st_clock].
  unfold bind at 1. cbn [input_strip st_stdin st_clock].
  unfold bind at 1. cbn [input_strip st_stdin st_clock].
  unfold bind at 1. rewrite (numeric_answer_run _ _ _ _ Hop).
  unfold bind at 1. rewrite check_position_run.
  unfold bind at 1. rewrite check_opacity_run.
  unfold bind at 1. rewrite parse_color_run.
  subst position color run.
  unfold warnings, preamble, result_of, trace_of, state_of, text_answer.
  match goal with
  | |- context [dispatch w ?a ?b ?c ?d ?e ?s] =>
      destruct (dispatch w a b c d e s) as [[r tr] st']
  end.
  cbn [fst snd app]. by rewrite <- !app_assoc.
Qed.

(** A number that does not read as an integer ends the run on the
    spot. *)
Lemma main_bad_font_size l1 l2 rest clk :
  numeric_answer l2 default_font_size = None ->
  main w {| st_stdin := l1 :: l2 :: rest; st_clock := clk |}
  = (Raise ValueError,
     [EvPrint Banner; EvPrint (Prompt PromptPath);
      EvPrint (Prompt PromptFontSize)],
     {| st_stdin := rest; st_clock := clk |}).
Proof.
  intros Hfs.
  unfold main. unfold bind at 1. cbn [print emit].
  unfold bind at 1. cbn [input_strip st_stdin st_clock].
  unfold bind at 1. cbn [input_strip st_stdin st_clock].
  unfold bind at 1. by rewrite (numeric_answer_bad _ _ _ Hfs).
Qed.

Lemma main_bad_opacity l1 l2 l3 l4 l5 rest clk fsz :
  numeric_answer l2 default_font_size = Some fsz ->
  numeric_answer l5 default_opacity = None ->
  main w {| st_stdin := l1 :: l2 :: l3 :: l4 :: l5 :: rest;
            st_clock := clk |}
  = (Raise ValueError, preamble, {| st_stdin := rest; st_clock := clk |}).
Proof.
  intros Hfs Hop.
  unfold main. unfold bind at 1. cbn [print emit].
  unfold bind at 1. cbn [input_strip st_stdin st_clock].
  unfold bind at 1. cbn [input_strip st_stdin st_clock].
  unfold bind at 1. rewrite (numeric_answer_run _ _ _ _ Hfs).
  unfold bind at 1. cbn [input_strip st_stdin st_clock].
  unfold bind at 1. cbn [input_strip st_stdin st_clock].
  unfold bind at 1. cbn [input_strip st_stdin st_clock].
  unfold bind at 1. by rewrite (numeric_answer_bad _ _ _ Hop).
Qed.

End Driver.

(* ===================================================================== *)
(** ** Paths *)
(* ===================================================================== *)

Section Paths.
Import PyStr OsPath.

Local Arguments String.append !_ _ / : simpl nomatch.

Lemma rfind_bounds c s : -1 <= rfind c s < Z.of_nat (String.length s).
Proof.
  induction s as [|a s IH]; cbn [rfind String.length]; [lia|].
  destruct (0 <=? rfind c s) eqn:E; [lia|].
  destruct (Ascii.eqb a c); lia.
Qed.

Lemma rfind_app_absent c a b :
  rfind c b = -1 -> rfind c (a +:+ b) = rfind c a.
Proof.
  intros Hb. induction a as [|x a IH]; cbn [String.append rfind]; [done|].
  by rewrite IH.
Qed.

Lemma rfind_app_sep c a b :
  rfind c b = -1 ->
  rfind c (a +:+ String c b) = Z.of_nat (String.length a).
Proof.
  intros Hb. induction a as [|x a IH]; cbn [String.append rfind String.length].
  - rewrite Hb. cbn. by rewrite Ascii.eqb_refl.
  - rewrite IH.
    destruct (0 <=? Z.of_nat (String.length a)) eqn:E; lia.
Qed.

Lemma take_app a b : take (String.length a) (a +:+ b) = a.
Proof.
  induction a as [|x a IH]; cbn; [by destruct b|by rewrite IH].
Qed.

Lemma skip_app a b : skip (String.length a) (a +:+ b) = b.
Proof. induction a as [|x a IH]; cbn; [by destruct b|exact IH]. Qed.

Lemma app_String a c b : a +:+ String c b = (a +:+ String c "") +:+ b.
Proof. induction a as [|x a IH]; cbn; [done|by rewrite IH]. Qed.

Lemma length_app_one a c :
  String.length (a +:+ String c "") = S (String.length a).
Proof. induction a as [|x a IH]; cbn; [done|by rewrite IH]. Qed.

(** What follows the last separator has no separator. *)
Lemma rfind_skip c s :
  rfind c (skip (Z.to_nat (rfind c s + 1)) s) = -1.
Proof.
  induction s as [|a s IH]; [reflexivity|].
  cbn [rfind]. pose proof (rfind_bounds c s) as Hb.
  destruct (0 <=? rfind c s) eqn:E.
  - replace (Z.to_nat (rfind c s + 1 + 1))
      with (S (Z.to_nat (rfind c s + 1))) by lia.
    exact IH.
  - assert (rfind c s = -1) as Hs by lia.
    destruct (Ascii.eqb a c) eqn:Ea.
    + cbn. exact Hs.
    + change (Z.to_nat (-1 + 1)) with 0%nat. cbn [skip rfind].
      rewrite Hs, Ea. reflexivity.
Qed.

Lemma basename_no_sep p : rfind sep (basename p) = -1.
Proof. apply rfind_skip. Qed.

Lemma startswith_no_sep c s : rfind c s = -1 -> startswith c s = false.
Proof.
  destruct s as [|a s]; [done|]. cbn.
  pose proof (rfind_bounds c s).
  destruct (0 <=? rfind c s) eqn:E; [lia|].
  by destruct (Ascii.eqb a c).
Qed.

Lemma startswith_app c a b :
  startswith c a = false -> a <> "" -> startswith c (a +:+ b) = false.
Proof. by destruct a. Qed.

Lemma endswith_app c a b :
  b <> "" -> endswith c (a +:+ b) = endswith c b.
Proof.
  intros Hb. induction a as [|x a IH]; [done|].
  cbn [String.append]. cbn [endswith].
  destruct (a +:+ b) eqn:E; [|exact IH].
  destruct a, b; done.
Qed.

Lemma all_are_endswith c s :
  s <> "" -> endswith c s = false -> all_are c s = false.
Proof.
  induction s as [|a s IH]; [done|]. intros _.
  destruct s as [|b s].
  - cbn. intros ->. reflexivity.
  - intros H.
    change (all_are c (String a (String b s)))
      with (Ascii.eqb a c && all_are c (String b s)).
    rewrite IH; [|done|exact H]. by rewrite andb_false_r.
Qed.

Lemma all_are_app c a b :
  all_are c (a +:+ b) = all_are c a && all_are c b.
Proof.
  induction a as [|x a IH]; [done|]. cbn. by rewrite IH, andb_assoc.
Qed.

Lemma rstrip_by_keep f s :
  (s = "" \/ exists a c, s = a +:+ String c "" /\ f c = false) ->
  rstrip_by f s = s.
Proof.
  intros [->|(a & c & -> & Hc)]; [done|].
  induction a as [|x a IH]; cbn; [by rewrite Hc|].
  rewrite IH. by destruct a.
Qed.

Lemma rstrip_by_app_one f a c :
  f c = true -> rstrip_by f (a +:+ String c "") = rstrip_by f a.
Proof.
  intros Hc. induction a as [|x a IH]; cbn; [by rewrite Hc|].
  by rewrite IH.
Qed.

(** A string is empty or ends in its last character. *)
Lemma last_char s : s = "" \/ exists a c, s = a +:+ String c "".
Proof.
  induction s as [|x s [->|(a & c & ->)]]; [by left| |].
  - right. by exists "", x.
  - right. by exists (String x a), c.
Qed.

Lemma endswith_last c a x :
  endswith c (a +:+ String x "") = Ascii.eqb x c.
Proof. by rewrite endswith_app. Qed.

Lemma rstrip_sep_keep s :
  endswith sep s = false -> rstrip_by (fun c => Ascii.eqb c sep) s = s.
Proof.
  intros H. apply rstrip_by_keep.
  destruct (last_char s) as [->|(a & c & ->)]; [by left|right].
  exists a, c. split; [done|]. by rewrite endswith_last in H.
Qed.

(** [a/b] for a single component [b]: its parts. *)
Lemma basename_slash a b :
  rfind sep b = -1 -> basename (a +:+ String sep b) = b.
Proof.
  intros Hb. unfold basename, from. rewrite rfind_app_sep by done.
  replace (Z.to_nat (Z.of_nat (String.length a) + 1))
    with (String.length (a +:+ String sep "")).
  - rewrite (app_String a sep b). apply skip_app.
  - rewrite length_app_one. lia.
Qed.

Lemma dirname_slash a b :
  a <> "" -> endswith sep a = false -> rfind sep b = -1 ->
  dirname (a +:+ String sep b) = a.
Proof.
  intros Ha He Hb. unfold dirname, upto. rewrite rfind_app_sep by done.
  replace (Z.to_nat (Z.of_nat (String.length a) + 1))
    with (String.length (a +:+ String sep "")).
  2:{ rewrite length_app_one. lia. }
  rewrite (app_String a sep b), take_app.
  rewrite all_are_app, (all_are_endswith _ a Ha He). cbn [andb negb].
  assert ((a +:+ String sep "" =? "")%string = false) as ->.
  { by destruct a. }
  cbn [negb andb].
  rewrite rstrip_by_app_one by apply Ascii.eqb_refl.
  by apply rstrip_sep_keep.
Qed.

Lemma join_plain a b :
  a <> "" -> endswith sep a = false -> startswith sep b = false ->
  join a b = a +:+ String sep b.
Proof.
  intros Ha He Hb. unfold join. rewrite Hb, He.
  by destruct a.
Qed.

(** The name of the output directory is a single component. *)
Lemma watermark_name_no_sep p : rfind sep (basename p +:+ "_watermark") = -1.
Proof.
  rewrite rfind_app_absent by reflexivity. apply basename_no_sep.
Qed.

Lemma output_dir_of_plain d :
  d <> "" -> endswith sep d = false ->
  output_dir_of d = d +:+ String sep (basename d +:+ "_watermark").
Proof.
  intros Hd He. unfold output_dir_of. apply join_plain; [done..|].
  apply startswith_no_sep, watermark_name_no_sep.
Qed.

Lemma output_dir_of_nonempty d : output_dir_of d <> "".
Proof.
  unfold output_dir_of, join.
  assert (forall x, x +:+ "_watermark" <> "") as Hne by by intros [|? ?].
  destruct (startswith sep (basename d +:+ "_watermark")); [apply Hne|].
  destruct ((d =? "")%string || endswith sep d).
  - destruct d; [apply Hne|done].
  - by destruct d.
Qed.

Lemma output_dir_of_no_slash d : endswith sep (output_dir_of d) = false.
Proof.
  assert (forall x, endswith sep (x +:+ "_watermark") = false) as Hw.
  { intros x. by rewrite endswith_app. }
  unfold output_dir_of, join.
  destruct (startswith sep (basename d +:+ "_watermark")); [apply Hw|].
  destruct ((d =? "")%string || endswith sep d).
  - rewrite endswith_app; [apply Hw|by destruct (basename d)].
  - rewrite endswith_app; [|done].
    change (String sep (basename d +:+ "_watermark"))
      with (String sep (basename d) +:+ "_watermark").
    apply Hw.
Qed.

End Paths.

(* ===================================================================== *)
(** ** What the events of a run carry *)
(* ===================================================================== *)

Section Carried.

Variable w : World.

Lemma watermarking_lands input_of output_dir names n font_size font_color
    position opacity tr :
  n ∈ names ->
  watermarking (input_of n) (OsPath.join output_dir n)
    font_size font_color position opacity tr ->
  Forall (lands_in input_of output_dir names) tr.
Proof.
  intros Hn [pre text tr' Hpre Htr]. apply Forall_app. split.
  - eapply Forall_impl; [exact Hpre|]. by intros [] ?.
  - apply Forall_cons. split; [by exists n|].
    eapply Forall_impl; [exact Htr|].
    intros e [He|[->|[im ->]]]; [by destruct e|by exists n..].
Qed.

Lemma watermarking_carries image_path output_path font_size font_color
    position opacity tr :
  watermarking image_path output_path font_size font_color position
    opacity tr ->
  Forall (carries_style font_size font_color position opacity) tr.
Proof.
  intros [pre text tr' Hpre Htr]. apply Forall_app. split.
  - eapply Forall_impl; [exact Hpre|]. by intros [] ?.
  - apply Forall_cons. split; [done|].
    eapply Forall_impl; [exact Htr|].
    intros e [He|[->|[im ->]]]; [by destruct e|done..].
Qed.

Lemma watermarking_inputs image_path output_path font_size font_color
    position opacity tr :
  watermarking image_path output_path font_size font_color position
    opacity tr ->
  compositor_inputs tr = [image_path].
Proof.
  intros [pre text tr' Hpre Htr].
  assert (compositor_inputs tr' = []) as Htail.
  { induction Htr as [|e tr' He _ IH]; [done|].
    destruct He as [He|[->|[im ->]]]; [by destruct e|done..]. }
  induction Hpre as [|e pre He _ IH]; cbn.
  - by rewrite Htail.
  - by destruct e.
Qed.

Lemma compositor_inputs_app tr1 tr2 :
  compositor_inputs (tr1 ++ tr2)
  = compositor_inputs tr1 ++ compositor_inputs tr2.
Proof.
  induction tr1 as [|e tr1 IH]; [done|].
  destruct e; cbn; by rewrite ?IH.
Qed.

Lemma entries_lands dir_path output_dir font_size font_color position
    opacity names entries trs :
  entries ⊆ names ->
  Forall2 (entry_trace w dir_path output_dir font_size font_color
             position opacity) entries trs ->
  Forall (lands_in (OsPath.join dir_path) output_dir names) (concat trs).
Proof.
  intros Hsub H. induction H as [|n tr entries trs Hn _ IH]; [constructor|].
  cbn. apply Forall_app. split.
  - unfold entry_trace in Hn.
    destruct (path_isdir w (OsPath.join dir_path n)); [by subst|].
    destruct (has_image_extension n).
    + eapply (watermarking_lands (OsPath.join dir_path)); [|exact Hn].
      apply Hsub. by left.
    + subst. by repeat constructor.
  - apply IH. intros x Hx. apply Hsub. by right.
Qed.

Lemma entries_carry dir_path output_dir font_size font_color position
    opacity entries trs :
  Forall2 (entry_trace w dir_path output_dir font_size font_color
             position opacity) entries trs ->
  Forall (carries_style font_size font_color position opacity)
    (concat trs).
Proof.
  induction 1 as [|n tr entries trs Hn _ IH]; [constructor|].
  cbn. apply Forall_app. split; [|exact IH].
  unfold entry_trace in Hn.
  destruct (path_isdir w (OsPath.join dir_path n)); [by subst|].
  destruct (has_image_extension n).
  - eapply watermarking_carries, Hn.
  - subst. by repeat constructor.
Qed.

Lemma entries_inputs dir_path output_dir font_size font_color position
    opacity entries trs :
  Forall2 (entry_trace w dir_path output_dir font_size font_color
             position opacity) entries trs ->
  compositor_inputs (concat trs)
  = map (OsPath.join dir_path) (List.filter (selected w dir_path) entries).
Proof.
  induction 1 as [|n tr entries trs Hn _ IH]; [done|].
  cbn [concat List.filter]. rewrite compositor_inputs_app, IH.
  unfold entry_trace in Hn.
  change (selected w dir_path n)
    with (negb (path_isdir w (OsPath.join dir_path n))
          && has_image_extension n).
  destruct (path_isdir w (OsPath.join dir_path n)); [by subst|].
  destruct (has_image_extension n); cbn [negb andb].
  - by rewrite (watermarking_inputs _ _ _ _ _ _ _ Hn).
  - by subst.
Qed.

(** A listing without an image: the loop prints its lines and returns
    in the state it started from. *)
Lemma for_each_unselected dir_path output_dir font_size font_color
    position opacity entries st :
  forallb (fun n => negb (selected w dir_path n)) entries = true ->
  for_each entries
    (process_entry w dir_path output_dir font_size font_color position
       opacity) st
  = (Ok tt, skip_lines w dir_path entries, st).
Proof.
  induction entries as [|n entries IH]; intros Hno; [reflexivity|].
  cbn [forallb] in Hno. apply andb_true_iff in Hno as [Hn Hno].
  apply negb_true_iff in Hn. unfold selected in Hn.
  unfold skip_lines in *. cbn [for_each List.filter].
  unfold bind at 1. unfold process_entry at 1.
  destruct (path_isdir w (OsPath.join dir_path n)).
  - cbn [ret negb]. by rewrite (IH Hno).
  - cbn [negb andb] in Hn. rewrite Hn. cbn [negb print emit].
    by rewrite (IH Hno).
Qed.

(** Every run of directory mode, whatever the file system answers. *)
Lemma process_directory_carries dir_path font_size font_color position
    opacity st :
  let run :=
    process_directory w dir_path font_size font_color position opacity st
  in
  Forall (carries_style font_size font_color position opacity)
    (trace_of run)
  /\ (forall e, result_of run = Raise e ->
        makedirs w (output_dir_of dir_path) = Some e
        \/ listdir w dir_path = Raise e).
Proof.
  destruct (makedirs w (output_dir_of dir_path)) as [e|] eqn:Hmk.
  { cbn zeta. rewrite (process_directory_no_dir _ _ _ _ _ _ _ _ Hmk).
    split; [constructor|]. intros e' [= ->]. by left. }
  destruct (listdir w dir_path) as [entries|e] eqn:Hls.
  - destruct (process_directory_run w dir_path font_size font_color
                position opacity entries st Hmk Hls)
      as (trs & st' & -> & Hshape).
    split; [|by intros e [=]].
    apply Forall_cons. split; [done|]. by eapply entries_carry.
  - cbn zeta. rewrite (process_directory_no_listing _ _ _ _ _ _ _ _ Hmk Hls).
    split; [by repeat constructor|]. intros e' [= ->]. by right.
Qed.

Lemma process_single_file_carries file_path font_size font_color position
    opacity st :
  let run :=
    process_single_file w file_path font_size font_color position opacity
      st
  in
  Forall (carries_style font_size font_color position opacity)
    (trace_of run)
  /\ (forall e, result_of run = Raise e ->
        makedirs w (output_dir_of (OsPath.dirname file_path)) = Some e).
Proof.
  destruct (has_image_extension file_path) eqn:Hext.
  2:{ cbn zeta. rewrite (process_single_file_skip _ _ _ _ _ _ _ Hext).
      split; [by repeat constructor|]. by intros e [=]. }
  destruct (makedirs w (output_dir_of (OsPath.dirname file_path)))
    as [e|] eqn:Hmk.
  { cbn zeta. rewrite (process_single_file_no_dir _ _ _ _ _ _ _ _ Hext Hmk).
    split; [constructor|]. by intros e' [= ->]. }
  destruct (process_single_file_run w file_path font_size font_color
              position opacity st Hext Hmk) as (tr & st' & -> & Hshape).
  split; [|by intros e [=]].
  apply Forall_cons. split; [done|]. by eapply watermarking_carries.
Qed.

Lemma dispatch_carries image_path font_size font_color position opacity
    st :
  let run :=
    dispatch w image_path font_size font_color position opacity st in
  Forall (carries_style font_size font_color position opacity)
    (trace_of run)
  /\ (forall e, result_of run = Raise e ->
        path_exists w image_path = true
        /\ ((exists p, makedirs w p = Some e)
            \/ listdir w image_path = Raise e)).
Proof.
  unfold dispatch.
  destruct (path_exists w image_path); cbn [negb].
  2:{ split; [by repeat constructor|]. by intros e [=]. }
  destruct (path_isfile w image_path).
  - destruct (process_single_file_carries image_path font_size font_color
                position opacity st) as [Htr Hres].
    split; [exact Htr|]. intros e He. split; [done|]. left. eauto.
  - destruct (process_directory_carries image_path font_size font_color
                position opacity st) as [Htr Hres].
    split; [exact Htr|]. intros e He. split; [done|].
    destruct (Hres e He); eauto.
Qed.

End Carried.

(* ===================================================================== *)
(** ** The style after validation *)
(* ===================================================================== *)

Lemma mem_elem_of x xs : PyStr.mem x xs = true <-> x ∈ xs.
Proof.
  unfold PyStr.mem. rewrite existsb_exists, list_elem_of_In. split.
  - intros (y & Hy & E). apply String.eqb_eq in E. by subst.
  - intros H. exists x. split; [done|apply String.eqb_refl].
Qed.

Lemma in_byte_range_spec c : in_byte_range c = true <-> 0 <= c <= 255.
Proof. unfold in_byte_range. lia. Qed.

Lemma coerce_position_valid position :
  coerce_position position ∈ valid_positions.
Proof.
  unfold coerce_position.
  destruct (PyStr.mem position valid_positions) eqn:E.
  - by apply mem_elem_of.
  - by apply mem_elem_of.
Qed.

Lemma coerce_opacity_range opacity : 0 <= coerce_opacity opacity <= 255.
Proof.
  unfold coerce_opacity.
  destruct (in_byte_range opacity) eqn:E.
  - by apply in_byte_range_spec.
  - unfold default_opacity. lia.
Qed.

Lemma coerce_color_range font_color_str :
  length (coerce_color font_color_str) = 3%nat
  /\ Forall (fun c => 0 <= c <= 255) (coerce_color font_color_str).
Proof.
  unfold coerce_color.
  destruct (is_named_color font_color_str).
  { unfold named_color_value.
    repeat match goal with
           | |- context [if ?b then _ else _] => destruct b
           end; (split; [done|repeat constructor; lia]). }
  destruct (map PyStr.int (PyStr.split "," font_color_str))
    as [|[r|] [|[g|] [|[b|] [|? ?]]]];
    try (split; [done|repeat constructor; lia]).
  destruct (in_byte_range r) eqn:Er, (in_byte_range g) eqn:Eg,
    (in_byte_range b) eqn:Eb; cbn [andb];
    try (split; [done|repeat constructor; lia]).
  apply in_byte_range_spec in Er, Eg, Eb.
  split; [done|]. repeat (apply Forall_cons; split; [done|]). constructor.
Qed.

Lemma coerced_style_in_range font_color_str position opacity :
  style_in_range (coerce_color font_color_str) (coerce_position position)
    (coerce_opacity opacity).
Proof.
  destruct (coerce_color_range font_color_str) as [Hlen Hall].
  split; [exact Hlen|]. split; [exact Hall|].
  split; [apply coerce_position_valid|apply coerce_opacity_range].
Qed.

Lemma carries_in_range font_size font_color position opacity tr :
  style_in_range font_color position opacity ->
  Forall (carries_style font_size font_color position opacity) tr ->
  Forall compositor_in_range tr.
Proof.
  intros Hs Htr. eapply Forall_impl; [exact Htr|]. intros [] H; try done.
  cbn in *. by destruct H as (_ & -> & -> & ->).
Qed.

Lemma prints_in_range tr :
  Forall (fun e => is_print e = true) tr -> Forall compositor_in_range tr.
Proof. intros H. eapply Forall_impl; [exact H|]. by intros []. Qed.

Lemma warnings_print position opacity font_color_str :
  Forall (fun e => is_print e = true)
    (warnings position opacity font_color_str).
Proof.
  unfold warnings.
  destruct (PyStr.mem position valid_positions),
    (in_byte_range opacity),
    (is_named_color font_color_str || is_rgb_triple font_color_str);
    by repeat constructor.
Qed.

Lemma preamble_prints : Forall (fun e => is_print e = true) preamble.
Proof. by repeat constructor. Qed.

Lemma obeys_input which (inv : event -> Prop) :
  (forall m, inv (EvPrint m)) ->
  obeys (input_strip which) inv (fun _ => True).
Proof.
  intros Hinv st. unfold input_strip.
  destruct (st_stdin st); (split; [by repeat constructor|done]).
Qed.

Lemma obeys_numeric line default (inv : event -> Prop) :
  obeys (if nonempty line then int_of line else ret default) inv
    (fun _ => True).
Proof.
  destruct (nonempty line); [|by apply obeys_ret].
  unfold int_of. destruct (PyStr.int line); [by apply obeys_ret|].
  apply obeys_raise.
Qed.

(* ===================================================================== *)
(** ** The properties of the specification *)
(* ===================================================================== *)

(** *** The date resolver *)

(** C3. When the metadata of a file is readable, the date resolver looks
    at the tags "EXIF DateTimeOriginal", "EXIF DateTimeDigitized" and
    "Image DateTime", in this order, and returns the value of the first tag
    that is present and parses under the format [%Y:%m:%d %H:%M:%S]. The
    tags before it are absent or, when present, do not parse: those are
    passed over, the resolution goes on. Nothing is printed. *)
Theorem C3_first_usable_tag (w : World) (image_path : string)
    (tags : gmap string string) (earlier later : list string)
    (tag value : string) (d : datetime) (st : state) :
  exif_tags w image_path = Ok tags ->
  datetime_tags = earlier ++ tag :: later ->
  Forall (unusable w tags) earlier ->
  tags !! tag = Some value ->
  strptime w value exif_format = Some d ->
  datetime_tags
  = ["EXIF DateTimeOriginal"; "EXIF DateTimeDigitized"; "Image DateTime"]
  /\ exif_format = "%Y:%m:%d %H:%M:%S"
  /\ get_exif_datetime w image_path st = (Ok d, [], st).
Proof.
  intros Htags Hsplit Hearlier Hvalue Hd.
  split; [reflexivity|]. split; [reflexivity|].
  apply get_exif_datetime_found with (tags := tags); [exact Htags|].
  rewrite Hsplit, scan_tags_skips by exact Hearlier.
  by apply scan_tags_hit with (s := value).
Qed.

Lemma C3_first_usable_tag_witness :
  get_exif_datetime Sample.world "/data/photos/a.JPG" Sample.idle
  = (Ok (mk_datetime 2021 2 3 4 5 6), [], Sample.idle).
Proof.
  apply (C3_first_usable_tag Sample.world "/data/photos/a.JPG" Sample.tags_a
           ["EXIF DateTimeOriginal"] ["Image DateTime"]
           "EXIF DateTimeDigitized" "2021:02:03 04:05:06").
  - reflexivity.
  - reflexivity.
  - apply Forall_cons. split; [vm_compute; reflexivity|constructor].
  - vm_compute; reflexivity.
  - reflexivity.
Defined.

(** With both the original and the digitized time present and parseable,
    the original one is taken. *)
Example original_before_digitized :
  get_exif_datetime Sample.world "/data/photos/c.jpg" Sample.idle
  = (Ok (mk_datetime 2020 12 31 23 59 58), [], Sample.idle).
Proof. vm_compute. reflexivity. Qed.

(** C4, as the specification states it, fails: the metadata of the file
    is read and holds no usable tag, and yet the resolver does not return
    the time stamp of the file. The stamp lies beyond the year 9999,
    [datetime.fromtimestamp] raises, and the handler that encloses the
    whole body prints the failure and returns the reading of the clock. *)
Lemma C4_stamp_not_returned :
  exif_tags Sample.far_future "/data/photos/b.png" = Ok ∅
  /\ getmtime Sample.far_future "/data/photos/b.png" = Ok 1000000000000
  /\ get_exif_datetime Sample.far_future "/data/photos/b.png" Sample.idle
     = (Ok (mk_datetime 2026 1 1 0 0 0),
        [EvPrint (ExifError "/data/photos/b.png" ValueError)],
        {| st_stdin := []; st_clock := 1 |}).
Proof. repeat split; vm_compute; reflexivity. Qed.

(** C4, amended. The date resolver never raises. When the metadata is
    read and no tag gives a parseable value, it returns the last-modified
    time stamp of the file, provided [os.path.getmtime] and
    [datetime.fromtimestamp] give it. When one of these two raises, or
    when reading the metadata raises, it prints the failure and returns
    the reading of the clock. *)
Theorem C4_resolver_fallbacks (w : World) (image_path : string)
    (st : state) :
  never_raises (get_exif_datetime w image_path)
  /\ (forall tags t d,
        exif_tags w image_path = Ok tags ->
        Forall (unusable w tags) datetime_tags ->
        getmtime w image_path = Ok t ->
        fromtimestamp w t = Ok d ->
        get_exif_datetime w image_path st = (Ok d, [], st))
  /\ (forall tags e,
        exif_tags w image_path = Ok tags ->
        Forall (unusable w tags) datetime_tags ->
        getmtime w image_path = Raise e
        \/ (exists t, getmtime w image_path = Ok t
                      /\ fromtimestamp w t = Raise e) ->
        get_exif_datetime w image_path st
        = (Ok (clock w (st_clock st)), [EvPrint (ExifError image_path e)],
           {| st_stdin := st_stdin st; st_clock := S (st_clock st) |}))
  /\ (forall e,
        exif_tags w image_path = Raise e ->
        get_exif_datetime w image_path st
        = (Ok (clock w (st_clock st)), [EvPrint (ExifError image_path e)],
           {| st_stdin := st_stdin st; st_clock := S (st_clock st) |})).
Proof.
  split; [apply get_exif_datetime_returns|]. split; [|split].
  - intros tags t d Htags Hnone Ht Hd.
    apply get_exif_datetime_mtime with (tags := tags) (t := t); try done.
    by apply scan_tags_none.
  - intros tags e Htags Hnone%scan_tags_none [Hm|(t & Hm & Hd)].
    + by apply get_exif_datetime_no_mtime with (tags := tags).
    + by apply get_exif_datetime_no_date with (tags := tags) (t := t).
  - intros e He. by apply get_exif_datetime_unreadable.
Qed.

Lemma C4_resolver_fallbacks_witness :
  get_exif_datetime Sample.world "/data/photos/b.png" Sample.idle
  = (Ok (mk_datetime 2023 11 14 22 13 20), [], Sample.idle)
  /\ get_exif_datetime Sample.far_future "/data/photos/b.png" Sample.idle
     = (Ok (mk_datetime 2026 1 1 0 0 0),
        [EvPrint (ExifError "/data/photos/b.png" ValueError)],
        {| st_stdin := []; st_clock := 1 |})
  /\ get_exif_datetime Sample.world "/data/photos/notes.txt" Sample.idle
     = (Ok (mk_datetime 2026 1 1 0 0 0),
        [EvPrint (ExifError "/data/photos/notes.txt" OSError)],
        {| st_stdin := []; st_clock := 1 |}).
Proof.
  split; [|split].
  - destruct (C4_resolver_fallbacks Sample.world "/data/photos/b.png"
                Sample.idle) as (_ & H & _).
    apply (H ∅ 1700000000); try reflexivity.
    repeat (apply Forall_cons; split; [vm_compute; exact I|]). constructor.
  - destruct (C4_resolver_fallbacks Sample.far_future "/data/photos/b.png"
                Sample.idle) as (_ & _ & H & _).
    apply (H ∅ ValueError); [reflexivity| |].
    + repeat (apply Forall_cons; split; [vm_compute; exact I|]). constructor.
    + right. by exists 1000000000000.
  - destruct (C4_resolver_fallbacks Sample.world "/data/photos/notes.txt"
                Sample.idle) as (_ & _ & _ & H).
    apply (H OSError). reflexivity.
Defined.

(** *** The compositor *)

(** C5. For an image of width [W] and height [H] and a text of extent
    [tw] x [th], the text is drawn with its top-left corner at: (10, 10)
    for top_left; (W - tw - 10, 10) for top_right; (10, H - th - 10) for
    bottom_left; (W - tw - 10, H - th - 10) for bottom_right;
    ((W - tw) div 2, (H - th) div 2) for center; and at the corner of
    bottom_right for any position that is not one of the five names. This
    is the corner at which [add_watermark] draws: in the picture it saves,
    the text sits at [text_origin] of the size of the opened image and of
    the measured extent of the text. *)
Theorem C5_text_origin (w : World) (position : string) (W H tw th : Z) :
  text_origin "top_left" W H tw th = (10, 10)
  /\ text_origin "top_right" W H tw th = (W - tw - 10, 10)
  /\ text_origin "bottom_left" W H tw th = (10, H - th - 10)
  /\ text_origin "bottom_right" W H tw th = (W - tw - 10, H - th - 10)
  /\ text_origin "center" W H tw th = ((W - tw) `div` 2, (H - th) `div` 2)
  /\ (PyStr.mem position valid_positions = false ->
      text_origin position W H tw th = (W - tw - 10, H - th - 10))
  /\ (forall image_path output_path text font_size font_color opacity st
             tr st',
        add_watermark w image_path output_path text font_size font_color
          position opacity st = (Ok true, tr, st') ->
        exists src f tw' th' im s1,
          image_open w image_path = Ok src
          /\ result_of (measure_text w f text s1) = Ok (tw', th')
          /\ EvSave output_path im ∈ tr
          /\ drawn_at im
             = Some (text_origin position (im_width src) (im_height src)
                       tw' th')).
Proof.
  repeat (split; [reflexivity|]). split.
  - unfold PyStr.mem, valid_positions. cbn [existsb]. intros Hn.
    apply orb_false_elim in Hn as [H1 Hn].
    apply orb_false_elim in Hn as [H2 Hn].
    apply orb_false_elim in Hn as [H3 Hn].
    apply orb_false_elim in Hn as [_ Hn].
    apply orb_false_elim in Hn as [H5 _].
    unfold text_origin. by rewrite H1, H2, H3, H5.
  - intros image_path output_path text font_size font_color opacity st tr
      st' Hrun.
    destruct (add_watermark_run w image_path output_path text font_size
                font_color position opacity st) as (b & tr' & s' & E & Hb).
    rewrite Hrun in E. injection E as <- -> <-.
    destruct Hb as (src & f & tw' & th' & pre & s1 & Ho & Hm & _ & ->).
    exists src, f, tw', th',
      (watermarked src f text position font_color opacity tw' th'), s1.
    split; [exact Ho|]. split; [exact Hm|]. split; [|reflexivity].
    apply elem_of_cons. right. apply elem_of_app. right. by left.
Qed.

Lemma C5_text_origin_witness :
  text_origin "middle" 100 50 20 10 = (70, 30).
Proof.
  destruct (C5_text_origin Sample.world "middle" 100 50 20 10)
    as (_ & _ & _ & _ & _ & H & _).
  apply H. reflexivity.
Defined.

(** The two positions the specification works out, and a text wider than
    the image: the division rounds down. *)
Example origin_center : text_origin "center" 100 50 20 10 = (40, 20).
Proof. reflexivity. Qed.
Example origin_bottom_right :
  text_origin "bottom_right" 100 50 20 10 = (70, 30).
Proof. reflexivity. Qed.
Example origin_center_wide : text_origin "center" 10 10 15 15 = (-3, -3).
Proof. reflexivity. Qed.

Lemma prints_leave_disk tr :
  Forall (fun e => is_print e = true) tr -> List.filter touches_disk tr = [].
Proof.
  induction 1 as [|e tr He _ IH]; [done|].
  destruct e; try discriminate He. exact IH.
Qed.

Lemma failures_leave_disk (w : World) output_path tr :
  (forall im err, save w output_path im <> SaveFails err true) ->
  Forall (failure_event w output_path) tr ->
  List.filter touches_disk tr = [].
Proof.
  intros Hatomic. induction 1 as [|e tr He _ IH]; [done|].
  destruct He as [He|[-> (im & err & Hs)]].
  - destruct e; try discriminate He. exact IH.
  - by destruct (Hatomic im err).
Qed.

(** C2, as the specification states it, fails: on a disk where the write
    breaks off midway, [add_watermark] returns failure and the truncated
    file stays at the output path. *)
Lemma C2_partial_file_left :
  add_watermark Sample.full_disk "/data/photos/c.jpg" "/out/c.jpg"
    "2020-12-31" 20 [255; 255; 255] "bottom_right" 128 Sample.idle
  = (Ok false,
     [EvCompositor "/data/photos/c.jpg" "/out/c.jpg" "2020-12-31" 20
        [255; 255; 255] "bottom_right" 128;
      EvPartial "/out/c.jpg";
      EvPrint (ProcessError "/data/photos/c.jpg" OSError)],
     Sample.idle).
Proof. vm_compute. reflexivity. Qed.

(** C2, amended. For every input and every style, [add_watermark]
    returns. When it returns success it has written one file, at the
    output path, whose pixel dimensions are those of the input image. When
    it returns failure it has written no picture; the only thing that can
    then be at the output path is what a failed [save] of the image
    library left there, which [add_watermark] does not remove: with a
    [save] that leaves nothing behind when it fails, no output file
    exists. *)
Theorem C2_success_or_no_picture (w : World)
    (image_path output_path text : string) (font_size : Z)
    (font_color : list Z) (position : string) (opacity : Z) (st : state) :
  exists b tr st',
    add_watermark w image_path output_path text font_size font_color
      position opacity st
    = (Ok b,
       EvCompositor image_path output_path text font_size font_color
         position opacity :: tr, st')
    /\ (b = true ->
        exists src im,
          image_open w image_path = Ok src
          /\ im_width im = im_width src /\ im_height im = im_height src
          /\ List.filter touches_disk tr = [EvSave output_path im])
    /\ (b = false ->
        Forall (failure_event w output_path) tr
        /\ ((forall im err, save w output_path im <> SaveFails err true) ->
            List.filter touches_disk tr = [])).
Proof.
  destruct (add_watermark_run w image_path output_path text font_size
              font_color position opacity st) as (b & tr & st' & E & Hb).
  exists b, tr, st'. split; [exact E|]. split.
  - intros ->.
    destruct Hb as (src & f & tw & th & pre & s1 & Ho & _ & Hpre & ->).
    exists src, (watermarked src f text position font_color opacity tw th).
    split; [exact Ho|]. split; [reflexivity|]. split; [reflexivity|].
    by rewrite List.filter_app, (prints_leave_disk _ Hpre).
  - intros ->. split; [exact Hb|]. intros Hatomic.
    by apply failures_leave_disk with (w := w) (output_path := output_path).
Qed.

Lemma C2_success_or_no_picture_witness :
  (exists tr st',
      add_watermark Sample.world "/data/photos/a.JPG" "/out/a.JPG" "x" 20
        [255; 255; 255] "center" 128 Sample.idle
      = (Ok true,
         EvCompositor "/data/photos/a.JPG" "/out/a.JPG" "x" 20
           [255; 255; 255] "center" 128 :: tr, st')
      /\ exists im, im_width im = 100 /\ im_height im = 50
                    /\ List.filter touches_disk tr = [EvSave "/out/a.JPG" im])
  /\ (exists tr st',
        add_watermark Sample.world "/data/photos/b.png" "/out/b.png" "x" 20
          [255; 255; 255] "center" 128 Sample.idle
        = (Ok false,
           EvCompositor "/data/photos/b.png" "/out/b.png" "x" 20
             [255; 255; 255] "center" 128 :: tr, st')
        /\ List.filter touches_disk tr = []).
Proof.
  split.
  - destruct (C2_success_or_no_picture Sample.world "/data/photos/a.JPG"
                "/out/a.JPG" "x" 20 [255; 255; 255] "center" 128
                Sample.idle) as (b & tr & st' & E & Ht & _).
    assert (b = true) as -> by (vm_compute in E; congruence).
    exists tr, st'. split; [exact E|].
    destruct (Ht eq_refl) as (src & im & Ho & Hw & Hh & Hd).
    injection Ho as <-. by exists im.
  - destruct (C2_success_or_no_picture Sample.world "/data/photos/b.png"
                "/out/b.png" "x" 20 [255; 255; 255] "center" 128
                Sample.idle) as (b & tr & st' & E & _ & Hf).
    assert (b = false) as -> by (vm_compute in E; congruence).
    exists tr, st'. split; [exact E|].
    destruct (Hf eq_refl) as [_ Hn]. apply Hn. intros im err. discriminate.
Defined.

(** *** The driver *)

(** C6. In the validation of the driver, a position that is not one of
    the five names is replaced by bottom_right, with a warning; an integer
    opacity outside [0, 255] is replaced by 128, with a warning; a colour
    that is neither one of the five names (in any letter case) nor a
    comma-separated triple of integers in [0, 255] is replaced by white,
    (255, 255, 255), with a warning. All of this happens before the
    compositor is called: the run is the prompts, then the warnings, then
    the processing, and every call of the compositor carries the style as
    replaced. *)
Theorem C6_validation (w : World) (l1 l2 l3 l4 l5 : string)
    (rest : list string) (clk : nat) (font_size opacity : Z) :
  numeric_answer l2 default_font_size = Some font_size ->
  numeric_answer l5 default_opacity = Some opacity ->
  let position := text_answer l4 default_position in
  let color := text_answer l3 default_font_color in
  exists warned position' opacity' color',
    let run :=
      dispatch w (PyStr.strip l1) font_size color' position' opacity'
        {| st_stdin := rest; st_clock := clk |} in
    main w {| st_stdin := l1 :: l2 :: l3 :: l4 :: l5 :: rest;
              st_clock := clk |}
    = (result_of run, preamble ++ warned ++ trace_of run, state_of run)
    /\ Forall (fun e => is_print e = true) (preamble ++ warned)
    /\ Forall (carries_style font_size color' position' opacity')
         (trace_of run)
    /\ (PyStr.mem position valid_positions = false ->
        position' = "bottom_right"
        /\ EvPrint (WarnPosition position) ∈ warned)
    /\ (in_byte_range opacity = false ->
        opacity' = 128 /\ EvPrint (WarnOpacity opacity) ∈ warned)
    /\ (is_named_color color = false -> is_rgb_triple color = false ->
        color' = [255; 255; 255] /\ EvPrint (WarnColor color) ∈ warned).
Proof.
  intros Hfs Hop position color.
  exists (warnings position opacity color), (coerce_position position),
    (coerce_opacity opacity), (coerce_color color).
  split; [by apply main_run|].
  split; [apply Forall_app; split;
          [apply preamble_prints|apply warnings_print]|].
  split; [apply dispatch_carries|].
  unfold warnings, coerce_position, coerce_opacity, coerce_color,
    is_rgb_triple.
  split; [|split].
  - intros ->. split; [reflexivity|]. apply elem_of_app. left. by left.
  - intros ->. split; [reflexivity|].
    apply elem_of_app. right. apply elem_of_app. left. by left.
  - intros -> Htriple. cbn [orb]. rewrite Htriple. split.
    + destruct (map PyStr.int (PyStr.split "," color))
        as [|[r|] [|[g|] [|[b|] [|? ?]]]]; try reflexivity.
      by rewrite Htriple.
    + do 2 (apply elem_of_app; right). by left.
Qed.

Lemma C6_validation_witness :
  exists warned,
    trace_of (main Sample.world
                (answers "/data/photos/c.jpg" "" "fuchsia" "middle" "999"))
    = preamble ++ warned
      ++ trace_of (dispatch Sample.world "/data/photos/c.jpg" 20
                     [255; 255; 255] "bottom_right" 128 Sample.idle)
    /\ EvPrint (WarnPosition "middle") ∈ warned
    /\ EvPrint (WarnOpacity 999) ∈ warned
    /\ EvPrint (WarnColor "fuchsia") ∈ warned.
Proof.
  destruct (C6_validation Sample.world "/data/photos/c.jpg" "" "fuchsia"
              "middle" "999" [] 0 20 999 eq_refl eq_refl)
    as (warned & position' & opacity' & color' & E & _ & _ & Hp & Ho & Hc).
  destruct (Hp eq_refl) as [-> Hwp].
  destruct (Ho eq_refl) as [-> Hwo].
  destruct (Hc eq_refl eq_refl) as [-> Hwc].
  exists warned. unfold answers. rewrite E.
  split; [reflexivity|]. split; [exact Hwp|]. split; [exact Hwo|exact Hwc].
Defined.

(** The three coercions the specification lists, as the compositor
    receives them. *)
Example coerced_style_example :
  compositor_inputs
    (trace_of (main Sample.world
                 (answers "/data/photos/c.jpg" "" "fuchsia" "middle" "999")))
  = ["/data/photos/c.jpg"]
  /\ Forall (carries_style 20 [255; 255; 255] "bottom_right" 128)
       (trace_of (main Sample.world
                    (answers "/data/photos/c.jpg" "" "fuchsia" "middle"
                       "999"))).
Proof.
  split; [vm_compute; reflexivity|].
  vm_compute. repeat (apply Forall_cons; split; [done|]). constructor.
Qed.

(** C7, as the specification states it, fails: a font size that is not a
    number ends the run with [ValueError] at the second prompt, although
    the input path exists; no warning is printed, no default is taken. *)
Lemma C7_font_size_aborts :
  path_exists Sample.world "/data/photos" = true
  /\ main Sample.world (answers "/data/photos" "abc" "white" "center" "128")
     = (Raise ValueError,
        [EvPrint Banner; EvPrint (Prompt PromptPath);
         EvPrint (Prompt PromptFontSize)],
        {| st_stdin := ["white"; "center"; "128"]; st_clock := 0 |}).
Proof. split; vm_compute; reflexivity. Qed.

(** C7, amended. When the answers for the font size and the opacity are
    empty or read as integers, the validation does not end the run: an
    invalid position, opacity or colour is answered by its warning and its
    default (the font size is taken as typed), and the run goes on to the
    path check. There, a path that does not exist prints an error and
    nothing else happens. After the path check the run can only be ended
    by an error of [os.makedirs] or [os.listdir]. *)
Theorem C7_warnings_not_aborts (w : World) (l1 l2 l3 l4 l5 : string)
    (rest : list string) (clk : nat) (font_size opacity : Z) :
  numeric_answer l2 default_font_size = Some font_size ->
  numeric_answer l5 default_opacity = Some opacity ->
  let position := text_answer l4 default_position in
  let color := text_answer l3 default_font_color in
  let image_path := PyStr.strip l1 in
  let run := main w {| st_stdin := l1 :: l2 :: l3 :: l4 :: l5 :: rest;
                       st_clock := clk |} in
  (exists tr,
      trace_of run = preamble ++ warnings position opacity color ++ tr
      /\ Forall (carries_style font_size (coerce_color color)
                   (coerce_position position) (coerce_opacity opacity)) tr)
  /\ (path_exists w image_path = false ->
      run = (Ok tt,
             preamble ++ warnings position opacity color
             ++ [EvPrint (ErrorNoPath image_path)],
             {| st_stdin := rest; st_clock := clk |}))
  /\ (forall e, result_of run = Raise e ->
        path_exists w image_path = true
        /\ ((exists p, makedirs w p = Some e)
            \/ listdir w image_path = Raise e)).
Proof.
  intros Hfs Hop position color image_path run.
  subst run. rewrite (main_run w _ _ _ _ _ _ _ _ _ Hfs Hop).
  fold position. fold color. fold image_path.
  destruct (dispatch_carries w image_path font_size (coerce_color color)
              (coerce_position position) (coerce_opacity opacity)
              {| st_stdin := rest; st_clock := clk |}) as [Htr Hres].
  split; [|split].
  - eexists. split; [reflexivity|exact Htr].
  - intros Hno. unfold dispatch. rewrite Hno. reflexivity.
  - exact Hres.
Qed.

Lemma C7_warnings_not_aborts_witness :
  main Sample.world (answers "/nowhere" " 12 " "1,2" "" "-1")
  = (Ok tt,
     preamble ++ [EvPrint (WarnOpacity (-1)); EvPrint (WarnColor "1,2")]
     ++ [EvPrint (ErrorNoPath "/nowhere")],
     {| st_stdin := []; st_clock := 0 |}).
Proof.
  destruct (C7_warnings_not_aborts Sample.world "/nowhere" " 12 " "1,2" ""
              "-1" [] 0 12 (-1) eq_refl eq_refl) as (_ & H & _).
  apply H. reflexivity.
Defined.

(** C8, as the specification states it, fails: the font size is not
    checked. With the answer -5 the compositor is entered with the font
    size -5. *)
Lemma C8_font_size_unchecked :
  ~ Forall compositor_in_range_positive
      (trace_of (main Sample.world
                   (answers "/data/photos/a.JPG" "-5" "" "" ""))).
Proof.
  intros H.
  apply (Forall_lookup_1 _ _ 7%nat
           (EvCompositor "/data/photos/a.JPG"
              "/data/photos/photos_watermark/a.JPG" "2021-02-03" (-5)
              [255; 255; 255] "bottom_right" 128)) in H.
  - cbn in H. lia.
  - vm_compute. reflexivity.
Qed.

(** C8, amended. In every run, whatever is typed, the style the
    compositor receives has its three colour channels and its opacity in
    [0, 255] and its position among the five names: these are replaced by
    defaults before the compositor is called. The font size is the integer
    that was typed, or 20; it is not checked. *)
Theorem C8_style_in_range (w : World) (st : state) :
  Forall compositor_in_range (trace_of (main w st)).
Proof.
  enough (obeys (main w) compositor_in_range (fun _ => True)) as Hmain
    by apply Hmain.
  clear st.
  assert (forall m, compositor_in_range (EvPrint m)) as Hp by done.
  unfold main.
  apply obeys_bind with (mid := fun _ => True);
    [by apply (obeys_emit (EvPrint _))|intros _ _].
  apply obeys_bind with (mid := fun _ => True);
    [by apply obeys_input|intros image_path _].
  apply obeys_bind with (mid := fun _ => True);
    [by apply obeys_input|intros font_size_input _].
  apply obeys_bind with (mid := fun _ => True);
    [apply obeys_numeric|intros font_size _].
  apply obeys_bind with (mid := fun _ => True);
    [by apply obeys_input|intros font_color_input _].
  apply obeys_bind with (mid := fun _ => True);
    [by apply obeys_input|intros position_input _].
  apply obeys_bind with (mid := fun _ => True);
    [by apply obeys_input|intros opacity_input _].
  apply obeys_bind with (mid := fun _ => True);
    [apply obeys_numeric|intros opacity _].
  apply obeys_bind with (mid := fun p => p ∈ valid_positions).
  { intros st. rewrite check_position_run. split.
    - unfold trace_of. cbn [fst snd].
      match goal with |- context [if ?b then _ else _] => destruct b end;
        by repeat constructor.
    - intros p [= <-]. apply coerce_position_valid. }
  intros position Hpos.
  apply obeys_bind with (mid := fun o => 0 <= o <= 255).
  { intros st. rewrite check_opacity_run. split.
    - unfold trace_of. cbn [fst snd].
      match goal with |- context [if ?b then _ else _] => destruct b end;
        by repeat constructor.
    - intros o [= <-]. apply coerce_opacity_range. }
  intros opacity' Hop.
  apply obeys_bind
    with (mid := fun c => length c = 3%nat
                          /\ Forall (fun x => 0 <= x <= 255) c).
  { intros st. rewrite parse_color_run. split.
    - unfold trace_of. cbn [fst snd].
      match goal with |- context [if ?b then _ else _] => destruct b end;
        by repeat constructor.
    - intros c [= <-]. apply coerce_color_range. }
  intros font_color [Hlen Hall] st. split; [|done].
  eapply carries_in_range; [|apply dispatch_carries].
  split; [exact Hlen|]. split; [exact Hall|]. split; [exact Hpos|exact Hop].
Qed.

(** *** The two modes *)

(** C9. Directory mode goes through the entries that [os.listdir] gives
    for the input directory and no others. An entry that is a directory is
    passed over entirely: nothing is printed, nothing is done. Of the
    other entries, those whose extension, lower-cased, is one of .jpg,
    .jpeg, .png, .bmp, .gif, .tiff are handed to the compositor, in the
    order of the listing, and only those. *)
Theorem C9_directory_selection (w : World) (dir_path : string)
    (font_size : Z) (font_color : list Z) (position : string) (opacity : Z)
    (entries : list string) (st : state) :
  makedirs w (output_dir_of dir_path) = None ->
  listdir w dir_path = Ok entries ->
  let run :=
    process_directory w dir_path font_size font_color position opacity st in
  result_of run = Ok tt
  /\ compositor_inputs (trace_of run)
     = map (OsPath.join dir_path) (List.filter (selected w dir_path) entries)
  /\ (forall name st1,
        path_isdir w (OsPath.join dir_path name) = true ->
        selected w dir_path name = false
        /\ process_entry w dir_path (output_dir_of dir_path) font_size
             font_color position opacity name st1 = (Ok tt, [], st1))
  /\ (forall name,
        selected w dir_path name
        = negb (path_isdir w (OsPath.join dir_path name))
          && PyStr.mem (snd (OsPath.splitext (PyStr.lower name)))
               [".jpg"; ".jpeg"; ".png"; ".bmp"; ".gif"; ".tiff"]).
Proof.
  intros Hmk Hls run.
  destruct (process_directory_run w dir_path font_size font_color position
              opacity entries st Hmk Hls) as (trs & st' & E & Hshape).
  subst run. rewrite E. split; [reflexivity|]. split; [|split].
  - unfold trace_of. cbn [fst snd compositor_inputs].
    by eapply entries_inputs.
  - intros name st1 Hdir. unfold selected, process_entry. by rewrite Hdir.
  - reflexivity.
Qed.

Lemma C9_directory_selection_witness :
  compositor_inputs
    (trace_of (process_directory Sample.world Sample.photos 20
                 [255; 255; 255] "bottom_right" 128 Sample.idle))
  = ["/data/photos/a.JPG"; "/data/photos/b.png"].
Proof.
  destruct (C9_directory_selection Sample.world Sample.photos 20
              [255; 255; 255] "bottom_right" 128 Sample.entries Sample.idle
              eq_refl eq_refl) as (_ & H & _).
  rewrite H. vm_compute. reflexivity.
Defined.

(** The extension is compared without regard to letter case, and a
    directory is passed over even when its name is that of an image. *)
Example extension_any_case :
  has_image_extension "IMG_0001.JpEg" = true
  /\ has_image_extension "notes.txt" = false
  /\ has_image_extension ".png" = false
  /\ selected Sample.world Sample.photos "sub.png" = false.
Proof. repeat split; vm_compute; reflexivity. Qed.

(** C10. Directory mode creates the output directory first and in every
    case: the creation is the first event of the run whatever the listing
    is, and when it fails nothing else happens; with no image among the
    entries the directory is created all the same and stays empty. Single
    file mode creates it only after the extension check: a file that is
    not an image is reported and no directory is created. *)
Theorem C10_when_output_dir_is_made (w : World) (dir_path file_path : string)
    (font_size : Z) (font_color : list Z) (position : string) (opacity : Z)
    (st : state) :
  let directory_run :=
    process_directory w dir_path font_size font_color position opacity st in
  let file_run :=
    process_single_file w file_path font_size font_color position opacity st
  in
  (makedirs w (output_dir_of dir_path) = None ->
   exists tr,
     trace_of directory_run = EvMakedirs (output_dir_of dir_path) :: tr)
  /\ (forall e, makedirs w (output_dir_of dir_path) = Some e ->
        directory_run = (Raise e, [], st))
  /\ (forall entries,
        makedirs w (output_dir_of dir_path) = None ->
        listdir w dir_path = Ok entries ->
        forallb (fun n => negb (selected w dir_path n)) entries = true ->
        directory_run
        = (Ok tt,
           EvMakedirs (output_dir_of dir_path)
           :: skip_lines w dir_path entries, st))
  /\ (has_image_extension file_path = false ->
      file_run = (Ok tt, [EvPrint (SkipNonImage file_path)], st))
  /\ (has_image_extension file_path = true ->
      makedirs w (output_dir_of (OsPath.dirname file_path)) = None ->
      exists tr,
        trace_of file_run
        = EvMakedirs (output_dir_of (OsPath.dirname file_path)) :: tr).
Proof.
  intros directory_run file_run. subst directory_run file_run.
  split; [|split; [|split; [|split]]].
  - intros Hmk.
    destruct (listdir w dir_path) as [entries|e] eqn:Hls.
    + destruct (process_directory_run w dir_path font_size font_color
                  position opacity entries st Hmk Hls)
        as (trs & st' & -> & _).
      by eexists.
    + rewrite (process_directory_no_listing _ _ _ _ _ _ _ _ Hmk Hls).
      by eexists.
  - intros e Hmk. by apply process_directory_no_dir.
  - intros entries Hmk Hls Hnone.
    unfold process_directory, os_makedirs. rewrite Hmk.
    unfold bind at 1. cbn [emit]. unfold bind at 1. unfold lift.
    rewrite Hls. by rewrite for_each_unselected.
  - intros Hext. by apply process_single_file_skip.
  - intros Hext Hmk.
    destruct (process_single_file_run w file_path font_size font_color
                position opacity st Hext Hmk) as (tr & st' & -> & _).
    by eexists.
Qed.

Lemma C10_when_output_dir_is_made_witness :
  (exists tr,
      trace_of (process_directory Sample.world Sample.photos 20
                  [255; 255; 255] "center" 128 Sample.idle)
      = EvMakedirs "/data/photos/photos_watermark" :: tr)
  /\ process_directory Sample.world "/data/photos/sub.png" 20
       [255; 255; 255] "center" 128 Sample.idle
     = (Raise OSError, [EvMakedirs "/data/photos/sub.png/sub.png_watermark"],
        Sample.idle)
  /\ process_single_file Sample.world "/data/photos/notes.txt" 20
       [255; 255; 255] "center" 128 Sample.idle
     = (Ok tt, [EvPrint (SkipNonImage "/data/photos/notes.txt")],
        Sample.idle)
  /\ (exists tr,
        trace_of (process_single_file Sample.world "/data/photos/a.JPG" 20
                    [255; 255; 255] "center" 128 Sample.idle)
        = EvMakedirs "/data/photos/photos_watermark" :: tr).
Proof.
  destruct (C10_when_output_dir_is_made Sample.world Sample.photos
              "/data/photos/notes.txt" 20 [255; 255; 255] "center" 128
              Sample.idle) as (H1 & _ & _ & H4 & _).
  destruct (C10_when_output_dir_is_made Sample.world Sample.photos
              "/data/photos/a.JPG" 20 [255; 255; 255] "center" 128
              Sample.idle) as (_ & _ & _ & _ & H5).
  split; [exact (H1 eq_refl)|]. split; [vm_compute; reflexivity|].
  split; [exact (H4 eq_refl)|]. exact (H5 eq_refl eq_refl).
Defined.

(** *** Where the output goes *)

Section Layout.
Import PyStr OsPath.

Lemma plain_name_spec n :
  plain_name n = true <-> n <> "" /\ rfind sep n = -1.
Proof.
  unfold plain_name, nonempty. rewrite andb_true_iff, negb_true_iff.
  rewrite String.eqb_neq, Z.eqb_eq. done.
Qed.

Lemma plain_dir_spec d :
  plain_dir d = true <-> d <> "" /\ endswith sep d = false.
Proof.
  unfold plain_dir, nonempty. rewrite andb_true_iff, !negb_true_iff.
  rewrite String.eqb_neq. done.
Qed.

Lemma basename_plain n : rfind sep n = -1 -> basename n = n.
Proof. intros H. unfold basename, from. by rewrite H. Qed.

(** The file name of [join a n] is [n]. *)
Lemma basename_join a n : plain_name n = true -> basename (join a n) = n.
Proof.
  intros [Hne Hn]%plain_name_spec. unfold join.
  rewrite (startswith_no_sep _ _ Hn).
  destruct (a =? "")%string eqn:Ea.
  { apply String.eqb_eq in Ea as ->. by apply basename_plain. }
  destruct (endswith sep a) eqn:He; cbn [orb].
  - destruct (last_char a) as [->|(a' & c & ->)]; [done|].
    rewrite endswith_last in He. apply Ascii.eqb_eq in He as ->.
    rewrite <- app_String. by apply basename_slash.
  - by apply basename_slash.
Qed.

(** The path of an output file, taken apart. *)
Lemma output_path_parts d n :
  plain_name n = true ->
  join (output_dir_of d) n = output_dir_of d +:+ String sep n
  /\ dirname (join (output_dir_of d) n) = output_dir_of d
  /\ basename (join (output_dir_of d) n) = n.
Proof.
  intros Hp. pose proof Hp as [Hne Hn]%plain_name_spec.
  assert (join (output_dir_of d) n = output_dir_of d +:+ String sep n)
    as E.
  { apply join_plain;
      [apply output_dir_of_nonempty|apply output_dir_of_no_slash|].
    by apply startswith_no_sep. }
  split; [exact E|]. split; [|by apply basename_join].
  rewrite E. apply dirname_slash;
    [apply output_dir_of_nonempty|apply output_dir_of_no_slash|exact Hn].
Qed.

(** The path of the output directory, taken apart. *)
Lemma output_dir_parts d :
  plain_dir d = true ->
  output_dir_of d = d +:+ String sep (basename d +:+ "_watermark")
  /\ dirname (output_dir_of d) = d
  /\ basename (output_dir_of d) = basename d +:+ "_watermark".
Proof.
  intros [Hne He]%plain_dir_spec.
  rewrite (output_dir_of_plain d Hne He).
  split; [reflexivity|]. split.
  - apply dirname_slash; [done..|apply watermark_name_no_sep].
  - apply basename_slash, watermark_name_no_sep.
Qed.

End Layout.

(** C1, as the specification states it, fails: the output directory is
    not made beside the input directory. For the input directory
    /data/photos the directory that is made is
    /data/photos/photos_watermark: its parent is the input directory
    itself, the parent of the input directory is /data. *)
Lemma C1_not_a_sibling :
  (exists tr,
      trace_of (process_directory Sample.world "/data/photos" 20
                  [255; 255; 255] "bottom_right" 128 Sample.idle)
      = EvMakedirs "/data/photos/photos_watermark" :: tr)
  /\ OsPath.dirname "/data/photos/photos_watermark" = "/data/photos"
  /\ OsPath.dirname "/data/photos" = "/data"
  /\ OsPath.dirname "/data/photos/photos_watermark"
     <> OsPath.dirname "/data/photos".
Proof.
  split; [eexists; vm_compute; reflexivity|].
  split; [reflexivity|]. split; [reflexivity|]. vm_compute. discriminate.
Qed.

(** C1, amended. In both modes the output directory is
    [join(d, basename(d) + "_watermark")] for the input directory [d]
    (in single-file mode, the directory part of the path of the file): a
    directory inside the input directory, named after it. Nothing else is
    made, and every file that is written is written inside the output
    directory under the name of its input file. Spelled out on the paths,
    for an input directory written without a trailing separator: the
    parent of the output directory is the input directory, its name is
    the name of the input directory followed by _watermark; the parent of
    an output file is the output directory, its name is the name of the
    input file. *)
Theorem C1_output_layout (w : World) (dir_path file_path : string)
    (font_size : Z) (font_color : list Z) (position : string) (opacity : Z)
    (st : state) :
  (forall entries,
      makedirs w (output_dir_of dir_path) = None ->
      listdir w dir_path = Ok entries ->
      Forall (lands_in (OsPath.join dir_path) (output_dir_of dir_path)
                entries)
        (trace_of (process_directory w dir_path font_size font_color
                     position opacity st)))
  /\ Forall (lands_in (fun _ => file_path)
               (output_dir_of (OsPath.dirname file_path))
               [OsPath.basename file_path])
       (trace_of (process_single_file w file_path font_size font_color
                    position opacity st))
  /\ (plain_dir dir_path = true ->
      output_dir_of dir_path
      = dir_path +:+ "/" +:+ OsPath.basename dir_path +:+ "_watermark"
      /\ OsPath.dirname (output_dir_of dir_path) = dir_path
      /\ OsPath.basename (output_dir_of dir_path)
         = OsPath.basename dir_path +:+ "_watermark")
  /\ (forall n,
        plain_name n = true ->
        OsPath.basename (OsPath.join dir_path n) = n
        /\ OsPath.join (output_dir_of dir_path) n
           = output_dir_of dir_path +:+ "/" +:+ n
        /\ OsPath.dirname (OsPath.join (output_dir_of dir_path) n)
           = output_dir_of dir_path
        /\ OsPath.basename (OsPath.join (output_dir_of dir_path) n) = n).
Proof.
  split; [|split; [|split]].
  - intros entries Hmk Hls.
    destruct (process_directory_run w dir_path font_size font_color position
                opacity entries st Hmk Hls) as (trs & st' & -> & Hshape).
    apply Forall_cons. split; [reflexivity|].
    by eapply entries_lands.
  - destruct (has_image_extension file_path) eqn:Hext.
    2:{ rewrite (process_single_file_skip _ _ _ _ _ _ _ Hext).
        by repeat constructor. }
    destruct (makedirs w (output_dir_of (OsPath.dirname file_path)))
      as [e|] eqn:Hmk.
    { rewrite (process_single_file_no_dir _ _ _ _ _ _ _ _ Hext Hmk).
      constructor. }
    destruct (process_single_file_run w file_path font_size font_color
                position opacity st Hext Hmk) as (tr & st' & -> & Hshape).
    apply Forall_cons. split; [reflexivity|].
    eapply (watermarking_lands (fun _ => file_path)); [|exact Hshape].
    by left.
  - intros Hd. by apply output_dir_parts.
  - intros n Hn. split; [by apply basename_join|].
    by apply output_path_parts.
Qed.

Lemma C1_output_layout_witness :
  OsPath.dirname (output_dir_of "/data/photos") = "/data/photos"
  /\ OsPath.basename (output_dir_of "/data/photos") = "photos_watermark"
  /\ OsPath.dirname (OsPath.join (output_dir_of "/data/photos") "a.JPG")
     = "/data/photos/photos_watermark"
  /\ OsPath.basename (OsPath.join (output_dir_of "/data/photos") "a.JPG")
     = "a.JPG"
  /\ Forall (lands_in (OsPath.join "/data/photos")
               "/data/photos/photos_watermark" Sample.entries)
       (trace_of (process_directory Sample.world "/data/photos" 20
                    [255; 255; 255] "center" 128 Sample.idle)).
Proof.
  destruct (C1_output_layout Sample.world "/data/photos"
              "/data/photos/a.JPG" 20 [255; 255; 255] "center" 128
              Sample.idle) as (Hdir & _ & Hout & Hfile).
  destruct (Hout eq_refl) as (_ & Hparent & Hname).
  destruct (Hfile "a.JPG" eq_refl) as (_ & _ & Hfparent & Hfname).
  split; [exact Hparent|]. split; [exact Hname|].
  split; [exact Hfparent|]. split; [exact Hfname|].
  exact (Hdir Sample.entries eq_refl eq_refl).
Defined.

(* ===================================================================== *)
(** ** Further properties of the compositor *)
(* ===================================================================== *)

Lemma measure_text_run (w : World) (f : font) (text : string) (st : state) :
  measure_text w f text st = (text_extent w f text, [], st).
Proof.
  unfold measure_text, text_extent, try_except, bind, lift.
  destruct (getbbox w f text) as [[[[b0 b1] b2] b3]|e]; [reflexivity|].
  destruct (is_AttributeError e); [|reflexivity].
  by destruct (textsize w f text).
Qed.

(** The nested [try] blocks of the font loading (lines 43-60) are a search
    through the list of candidates: the platform's Arial first, then
    PingFang, then DejaVu Sans; the first that loads is used; when all three
    fail with [IOError] the built-in font is used and one warning is
    printed. The state is not touched. *)
Theorem load_font_is_first_font (w : World) (font_size : Z) (st : state) :
  load_font w font_size st
  = (fst (first_font w font_size (font_candidates w)),
     snd (first_font w font_size (font_candidates w)), st).
Proof.
  unfold load_font, font_candidates, first_font, try_except,
    ImageFont_truetype.
  destruct (os_name w =? "nt")%string.
  - destruct (truetype w "C:/Windows/Fonts/arial.ttf" font_size) as [e1|];
      [|reflexivity].
    cbn [raise]. destruct (is_IOError e1); [|reflexivity].
    destruct (truetype w "/System/Library/Fonts/PingFang.ttc" font_size)
      as [e2|]; [|reflexivity].
    cbn [raise]. destruct (is_IOError e2); [|reflexivity].
    destruct (truetype w "/usr/share/fonts/truetype/dejavu/DejaVuSans.ttf"
                font_size) as [e3|]; [|reflexivity].
    cbn [raise]. by destruct (is_IOError e3).
  - destruct (truetype w "arial.ttf" font_size) as [e1|]; [|reflexivity].
    cbn [raise]. destruct (is_IOError e1); [|reflexivity].
    destruct (truetype w "/System/Library/Fonts/PingFang.ttc" font_size)
      as [e2|]; [|reflexivity].
    cbn [raise]. destruct (is_IOError e2); [|reflexivity].
    destruct (truetype w "/usr/share/fonts/truetype/dejavu/DejaVuSans.ttf"
                font_size) as [e3|]; [|reflexivity].
    cbn [raise]. by destruct (is_IOError e3).
Qed.

(** A missing font never fails a file: when every candidate that does not
    load fails with [IOError], a font is found. *)
Theorem missing_fonts_are_not_fatal (w : World) (font_size : Z) :
  (forall path e, truetype w path font_size = Some e -> e = OSError) ->
  exists f, fst (first_font w font_size (font_candidates w)) = Ok f.
Proof.
  intros Hio. generalize (font_candidates w). intros candidates.
  induction candidates as [|path rest IH]; [by eexists|].
  cbn. destruct (truetype w path font_size) as [e|] eqn:E; [|by eexists].
  rewrite (Hio path e E). exact IH.
Qed.

Lemma missing_fonts_are_not_fatal_witness :
  exists f, fst (first_font Sample.world 20 (font_candidates Sample.world))
            = Ok f.
Proof.
  apply (missing_fonts_are_not_fatal Sample.world 20).
  intros path e. cbn.
  destruct (path =? Sample.dejavu)%string; [discriminate|]. by intros [= <-].
Defined.

(** What [add_watermark] does when all goes well (lines 34-94): with an
    image that opens, a font found, an extent measured and a [save] that
    succeeds, it returns [True]; it prints what the font search printed,
    writes one file, the watermarked picture, at the output path, and
    reports it. The picture has the size of the source, is in mode RGB,
    and is the source under a transparent layer that holds nothing but the
    text, at [text_origin], in the colour [font_color] with [opacity] as
    its alpha. *)
Theorem add_watermark_success (w : World)
    (image_path output_path text : string) (font_size : Z)
    (font_color : list Z) (position : string) (opacity : Z) (st : state)
    (src : image) (f : font) (tw th : Z) :
  image_open w image_path = Ok src ->
  fst (first_font w font_size (font_candidates w)) = Ok f ->
  text_extent w f text = Ok (tw, th) ->
  save w output_path
    (watermarked src f text position font_color opacity tw th) = SaveOk ->
  add_watermark w image_path output_path text font_size font_color position
    opacity st
  = (Ok true,
     EvCompositor image_path output_path text font_size font_color position
       opacity
     :: snd (first_font w font_size (font_candidates w))
     ++ [EvSave output_path
           (watermarked src f text position font_color opacity tw th);
         EvPrint (Saved output_path)], st)
  /\ im_mode (watermarked src f text position font_color opacity tw th)
     = ModeRGB
  /\ im_data (watermarked src f text position font_color opacity tw th)
     = PxConvert ModeRGB
         (PxOver (PxConvert ModeRGBA (im_data src))
            (PxText (PxFill [0; 0; 0; 0])
               (text_origin position (im_width src) (im_height src) tw th)
               text f (font_color ++ [opacity]))).
Proof.
  intros Hopen Hfont Hext Hsave. split; [|split; reflexivity].
  unfold add_watermark, bind, try_except, emit, lift.
  rewrite Hopen, load_font_is_first_font, Hfont, measure_text_run, Hext.
  rewrite alpha_composite_same_size by reflexivity.
  unfold Image_save.
  change (convert ModeRGB _)
    with (watermarked src f text position font_color opacity tw th).
  rewrite Hsave. cbn. by rewrite ?app_nil_r.
Qed.

Lemma add_watermark_success_witness :
  add_watermark Sample.world "/data/photos/a.JPG" "/out/a.JPG" "2021-02-03"
    20 [255; 255; 255] "center" 128 Sample.idle
  = (Ok true,
     [EvCompositor "/data/photos/a.JPG" "/out/a.JPG" "2021-02-03" 20
        [255; 255; 255] "center" 128;
      EvSave "/out/a.JPG"
        (watermarked
           (mk_image 100 50 ModeRGB (PxDecoded "/data/photos/a.JPG"))
           (FreeTypeFont Sample.dejavu 20) "2021-02-03" "center"
           [255; 255; 255] 128 20 10);
      EvPrint (Saved "/out/a.JPG")], Sample.idle).
Proof.
  exact (proj1 (add_watermark_success Sample.world "/data/photos/a.JPG"
                  "/out/a.JPG" "2021-02-03" 20 [255; 255; 255] "center" 128
                  Sample.idle
                  (mk_image 100 50 ModeRGB (PxDecoded "/data/photos/a.JPG"))
                  (FreeTypeFont Sample.dejavu 20) 20 10
                  eq_refl eq_refl eq_refl eq_refl)).
Defined.

(** An image that cannot be opened (lines 36 and 95-97): the error is
    printed with the path of the image, [add_watermark] returns [False];
    no font is looked for and nothing is written. *)
Theorem add_watermark_unreadable_image (w : World)
    (image_path output_path text : string) (font_size : Z)
    (font_color : list Z) (position : string) (opacity : Z) (st : state)
    (e : exn) :
  image_open w image_path = Raise e ->
  add_watermark w image_path output_path text font_size font_color position
    opacity st
  = (Ok false,
     [EvCompositor image_path output_path text font_size font_color position
        opacity;
      EvPrint (ProcessError image_path e)], st).
Proof.
  intros Hopen. unfold add_watermark, bind, try_except, emit, lift.
  by rewrite Hopen.
Qed.

Lemma add_watermark_unreadable_image_witness :
  add_watermark Sample.world "/data/photos/b.png" "/out/b.png" "x" 20
    [255; 255; 255] "center" 128 Sample.idle
  = (Ok false,
     [EvCompositor "/data/photos/b.png" "/out/b.png" "x" 20 [255; 255; 255]
        "center" 128;
      EvPrint (ProcessError "/data/photos/b.png" OSError)], Sample.idle).
Proof.
  apply (add_watermark_unreadable_image Sample.world "/data/photos/b.png"
           "/out/b.png" "x" 20 [255; 255; 255] "center" 128 Sample.idle
           OSError).
  reflexivity.
Defined.

(** An error of the font search that is not an [IOError] (a font size of
    zero or less, for one) is not passed over: the file fails with this
    error, nothing is measured and nothing is written (lines 43-50 and
    95-97). *)
Theorem add_watermark_font_error (w : World)
    (image_path output_path text : string) (font_size : Z)
    (font_color : list Z) (position : string) (opacity : Z) (st : state)
    (src : image) (e : exn) :
  image_open w image_path = Ok src ->
  fst (first_font w font_size (font_candidates w)) = Raise e ->
  add_watermark w image_path output_path text font_size font_color position
    opacity st
  = (Ok false,
     EvCompositor image_path output_path text font_size font_color position
       opacity
     :: snd (first_font w font_size (font_candidates w))
     ++ [EvPrint (ProcessError image_path e)], st).
Proof.
  intros Hopen Hfont. unfold add_watermark, bind, try_except, emit, lift.
  rewrite Hopen, load_font_is_first_font, Hfont. cbn. reflexivity.
Qed.

Lemma add_watermark_font_error_witness :
  add_watermark Sample.world "/data/photos/a.JPG" "/out/a.JPG" "x" (-5)
    [255; 255; 255] "center" 128 Sample.idle
  = (Ok false,
     [EvCompositor "/data/photos/a.JPG" "/out/a.JPG" "x" (-5)
        [255; 255; 255] "center" 128;
      EvPrint (ProcessError "/data/photos/a.JPG" ValueError)], Sample.idle).
Proof.
  apply (add_watermark_font_error Sample.world "/data/photos/a.JPG"
           "/out/a.JPG" "x" (-5) [255; 255; 255] "center" 128 Sample.idle
           (mk_image 100 50 ModeRGB (PxDecoded "/data/photos/a.JPG"))
           ValueError); reflexivity.
Defined.

(* ===================================================================== *)
(** ** Further properties of the date resolver and of the two modes *)
(* ===================================================================== *)

(** The date resolver has two ways out (lines 7-30): it returns silently,
    having printed nothing and not read the clock; or it prints one line,
    which names the path and the error, and returns the reading of the
    clock. The current time is never returned without that line. *)
Theorem get_exif_datetime_silent_or_logged (w : World) (image_path : string)
    (st : state) :
  (exists d, get_exif_datetime w image_path st = (Ok d, [], st))
  \/ (exists e,
        get_exif_datetime w image_path st
        = (Ok (clock w (st_clock st)), [EvPrint (ExifError image_path e)],
           {| st_stdin := st_stdin st; st_clock := S (st_clock st) |})).
Proof.
  unfold get_exif_datetime, try_except, bind, lift.
  destruct (exif_tags w image_path) as [tags|e]; [|right; by exists e].
  destruct (scan_tags w tags datetime_tags) as [d|]; [left; by exists d|].
  destruct (getmtime w image_path) as [t|e]; [|right; by exists e].
  destruct (fromtimestamp w t) as [d|e]; [left; by exists d|right; by exists e].
Qed.

(** How the resolver and the compositor are put together (lines 186-194
    and 217-225): the text handed to the compositor is the date the
    resolver returned, printed with the format [%Y-%m-%d]; the lines of the
    resolver come before the entry into the compositor; a failure of the
    compositor does not fail the mode. *)
Theorem watermark_text_is_resolved_date (w : World)
    (dir_path output_dir file_name : string) (font_size : Z)
    (font_color : list Z) (position : string) (opacity : Z) (st st1 : state)
    (d : datetime) (lines : list event) :
  path_isdir w (OsPath.join dir_path file_name) = false ->
  has_image_extension file_name = true ->
  get_exif_datetime w (OsPath.join dir_path file_name) st = (Ok d, lines, st1)
  ->
  let call :=
    add_watermark w (OsPath.join dir_path file_name)
      (OsPath.join output_dir file_name) (strftime w d "%Y-%m-%d") font_size
      font_color position opacity st1 in
  process_entry w dir_path output_dir font_size font_color position opacity
    file_name st
  = (Ok tt, lines ++ trace_of call, state_of call).
Proof.
  intros Hdir Hext Hdate call. subst call.
  unfold process_entry. rewrite Hdir, Hext. cbn [negb].
  unfold bind at 1. rewrite Hdate.
  destruct (add_watermark_run w (OsPath.join dir_path file_name)
              (OsPath.join output_dir file_name)
              (strftime w d date_format) font_size font_color position
              opacity st1) as (b & tr & s2 & E & _).
  unfold bind at 1. unfold date_format in *. rewrite E. cbn.
  by rewrite app_nil_r.
Qed.

Lemma watermark_text_is_resolved_date_witness :
  compositor_inputs
    (trace_of (process_entry Sample.world Sample.photos "/out" 20
                 [255; 255; 255] "center" 128 "a.JPG" Sample.idle))
  = ["/data/photos/a.JPG"].
Proof.
  rewrite (watermark_text_is_resolved_date Sample.world Sample.photos "/out"
             "a.JPG" 20 [255; 255; 255] "center" 128 Sample.idle Sample.idle
             (mk_datetime 2021 2 3 4 5 6) [] eq_refl eq_refl eq_refl).
  vm_compute. reflexivity.
Defined.

(** Single-file mode on an image (lines 169-194): the output directory is
    made, the resolver runs, and the compositor is called once, on the
    file itself, with the file name of the input joined to the output
    directory and the resolved date as text. *)
Theorem process_single_file_image (w : World) (file_path : string)
    (font_size : Z) (font_color : list Z) (position : string) (opacity : Z)
    (st st1 : state) (d : datetime) (lines : list event) :
  has_image_extension file_path = true ->
  makedirs w (output_dir_of (OsPath.dirname file_path)) = None ->
  get_exif_datetime w file_path st = (Ok d, lines, st1) ->
  let output_dir := output_dir_of (OsPath.dirname file_path) in
  let call :=
    add_watermark w file_path
      (OsPath.join output_dir (OsPath.basename file_path))
      (strftime w d "%Y-%m-%d") font_size font_color position opacity st1 in
  process_single_file w file_path font_size font_color position opacity st
  = (Ok tt, EvMakedirs output_dir :: lines ++ trace_of call, state_of call)
  /\ compositor_inputs (EvMakedirs output_dir :: lines ++ trace_of call)
     = [file_path].
Proof.
  intros Hext Hmk Hdate output_dir call. subst output_dir call.
  destruct (add_watermark_run w file_path
              (OsPath.join (output_dir_of (OsPath.dirname file_path))
                 (OsPath.basename file_path))
              (strftime w d date_format) font_size font_color position
              opacity st1) as (b & tr & s2 & E & Hb).
  unfold date_format in *. split.
  - unfold process_single_file, os_makedirs. rewrite Hext, Hmk. cbn [negb].
    unfold bind at 1. cbn [emit]. unfold bind at 1. rewrite Hdate.
    unfold bind at 1. unfold date_format. rewrite E. cbn.
    by rewrite app_nil_r.
  - rewrite E. unfold trace_of. cbn [fst snd compositor_inputs].
    rewrite compositor_inputs_app.
    destruct (get_exif_datetime_prints w file_path st) as [Hp _].
    rewrite Hdate in Hp. unfold trace_of in Hp. cbn [fst snd] in Hp.
    assert (forall l, Forall (fun e => is_print e = true) l ->
                      compositor_inputs l = []) as Hnone.
    { induction 1 as [|x l Hx _ IH]; [done|]. by destruct x. }
    rewrite (Hnone lines Hp). cbn. f_equal.
    destruct b.
    + destruct Hb as (src & f & tw & th & pre & s' & _ & _ & Hpre & ->).
      rewrite compositor_inputs_app, (Hnone pre Hpre). reflexivity.
    + clear E. induction Hb as [|x l Hx _ IH]; [done|].
      destruct Hx as [Hx|[-> _]]; [by destruct x|exact IH].
Qed.

Lemma process_single_file_image_witness :
  trace_of (process_single_file Sample.world "/data/photos/c.jpg" 20
              [255; 255; 255] "center" 128 Sample.idle)
  = EvMakedirs "/data/photos/photos_watermark"
    :: trace_of (add_watermark Sample.world "/data/photos/c.jpg"
                   "/data/photos/photos_watermark/c.jpg" "2020-12-31" 20
                   [255; 255; 255] "center" 128 Sample.idle).
Proof.
  destruct (process_single_file_image Sample.world "/data/photos/c.jpg" 20
              [255; 255; 255] "center" 128 Sample.idle Sample.idle
              (mk_datetime 2020 12 31 23 59 58) [] eq_refl eq_refl eq_refl)
    as [E _].
  rewrite E. reflexivity.
Defined.

(* ===================================================================== *)
(** ** Further properties of the driver *)
(* ===================================================================== *)

(** Answers left empty, or made of white space only, select the defaults
    (lines 105-122): font size 20, white, bottom_right, opacity 128; no
    warning is printed, and the run is the prompts followed by the
    processing of the path with this style. *)
Theorem main_blank_answers (w : World) (l1 l2 l3 l4 l5 : string)
    (rest : list string) (clk : nat) :
  PyStr.strip l2 = "" -> PyStr.strip l3 = "" -> PyStr.strip l4 = "" ->
  PyStr.strip l5 = "" ->
  let run :=
    dispatch w (PyStr.strip l1) 20 [255; 255; 255] "bottom_right" 128
      {| st_stdin := rest; st_clock := clk |} in
  main w {| st_stdin := l1 :: l2 :: l3 :: l4 :: l5 :: rest; st_clock := clk |}
  = (result_of run, preamble ++ trace_of run, state_of run).
Proof.
  intros H2 H3 H4 H5 run.
  rewrite (main_run w l1 l2 l3 l4 l5 rest clk 20 128).
  - unfold text_answer. rewrite H3, H4. reflexivity.
  - unfold numeric_answer. by rewrite H2.
  - unfold numeric_answer. by rewrite H5.
Qed.

Lemma main_blank_answers_witness :
  trace_of (main Sample.world (answers "/nowhere" "" "  " "" " "))
  = preamble ++ [EvPrint (ErrorNoPath "/nowhere")].
Proof.
  unfold answers.
  rewrite (main_blank_answers Sample.world "/nowhere" "" "  " "" " " [] 0
             eq_refl eq_refl eq_refl eq_refl).
  reflexivity.
Defined.

(** When the input ends before the five answers are given (lines
    103-122), the run ends with [EOFError], or with [ValueError] if a
    number typed before that does not read as an integer; up to then only
    prompts are printed, and nothing is done to the file system. *)
Theorem main_short_input (w : World) (st : state) :
  (length (st_stdin st) < 5)%nat ->
  exists e,
    result_of (main w st) = Raise e
    /\ (e = EOFError \/ e = ValueError)
    /\ Forall (fun ev => is_print ev = true) (trace_of (main w st)).
Proof.
  destruct st as [stdin clk]. cbn [st_stdin]. intros Hlen.
  destruct stdin as [|l1 [|l2 [|l3 [|l4 [|l5 rest]]]]];
    [| | | | |cbn in Hlen; lia];
    unfold main, bind, print, emit, input_strip, int_of, ret, raise;
    cbn [st_stdin st_clock];
    repeat match goal with
      | |- context [if nonempty ?s then _ else _] => destruct (nonempty s)
      | |- context [match PyStr.int ?s with _ => _ end] =>
          destruct (PyStr.int s)
      end;
    eexists; (split; [reflexivity|]);
    (split; [by (left + right)|]);
    unfold trace_of; cbn [fst snd app];
    repeat (apply Forall_cons; split; [reflexivity|]); constructor.
Qed.

Lemma main_short_input_witness :
  exists e,
    result_of (main Sample.world
                 {| st_stdin := ["/data/photos"; "12"]; st_clock := 0 |})
    = Raise e
    /\ (e = EOFError \/ e = ValueError)
    /\ Forall (fun ev => is_print ev = true)
         (trace_of (main Sample.world
                      {| st_stdin := ["/data/photos"; "12"];
                         st_clock := 0 |})).
Proof.
  apply (main_short_input Sample.world
           {| st_stdin := ["/data/photos"; "12"]; st_clock := 0 |}).
  cbn. lia.
Defined.

(** The colours that are accepted (lines 136-151): each of the five names,
    in any letter case, gives its fixed triple; a string that is not a name
    and whose three comma-separated pieces read as integers in [0, 255]
    gives these three integers. No warning is printed for either. *)
Theorem parse_color_accepts (font_color_str : string) (st : state) :
  (PyStr.lower font_color_str = "white" ->
   parse_color font_color_str st = (Ok [255; 255; 255], [], st))
  /\ (PyStr.lower font_color_str = "black" ->
      parse_color font_color_str st = (Ok [0; 0; 0], [], st))
  /\ (PyStr.lower font_color_str = "red" ->
      parse_color font_color_str st = (Ok [255; 0; 0], [], st))
  /\ (PyStr.lower font_color_str = "green" ->
      parse_color font_color_str st = (Ok [0; 255; 0], [], st))
  /\ (PyStr.lower font_color_str = "blue" ->
      parse_color font_color_str st = (Ok [0; 0; 255], [], st))
  /\ (forall r g b,
        is_named_color font_color_str = false ->
        map PyStr.int (PyStr.split "," font_color_str)
        = [Some r; Some g; Some b] ->
        0 <= r <= 255 -> 0 <= g <= 255 -> 0 <= b <= 255 ->
        parse_color font_color_str st = (Ok [r; g; b], [], st)).
Proof.
  repeat split; try (intros H; unfold parse_color; by rewrite H).
  intros r g b Hname Hmap Hr Hg Hb.
  apply in_byte_range_spec in Hr, Hg, Hb.
  rewrite parse_color_run. unfold coerce_color, is_rgb_triple.
  by rewrite Hname, Hmap, Hr, Hg, Hb.
Qed.

Lemma parse_color_accepts_witness :
  parse_color "BlUe" Sample.idle = (Ok [0; 0; 255], [], Sample.idle)
  /\ parse_color " 12, +7 ,2_5_5" Sample.idle
     = (Ok [12; 7; 255], [], Sample.idle).
Proof.
  split.
  - destruct (parse_color_accepts "BlUe" Sample.idle)
      as (_ & _ & _ & _ & H & _).
    apply H. reflexivity.
  - destruct (parse_color_accepts " 12, +7 ,2_5_5" Sample.idle)
      as (_ & _ & _ & _ & _ & H).
    apply H; [reflexivity|reflexivity|lia..].
Defined.

(** A path that exists and is not a regular file is taken for a directory
    (lines 162-167). When listing it fails, the error of [os.listdir] ends
    the run, after the warnings, and after the output directory has been
    made: the directory stays, and nothing is written into it. *)
Theorem main_listing_error (w : World) (l1 l2 l3 l4 l5 : string)
    (rest : list string) (clk : nat) (font_size opacity : Z) (e : exn) :
  numeric_answer l2 default_font_size = Some font_size ->
  numeric_answer l5 default_opacity = Some opacity ->
  path_exists w (PyStr.strip l1) = true ->
  path_isfile w (PyStr.strip l1) = false ->
  makedirs w (output_dir_of (PyStr.strip l1)) = None ->
  listdir w (PyStr.strip l1) = Raise e ->
  main w {| st_stdin := l1 :: l2 :: l3 :: l4 :: l5 :: rest; st_clock := clk |}
  = (Raise e,
     preamble
     ++ warnings (text_answer l4 default_position) opacity
          (text_answer l3 default_font_color)
     ++ [EvMakedirs (output_dir_of (PyStr.strip l1))],
     {| st_stdin := rest; st_clock := clk |}).
Proof.
  intros Hfs Hop Hex Hfile Hmk Hls.
  rewrite (main_run w _ _ _ _ _ _ _ _ _ Hfs Hop).
  unfold dispatch. rewrite Hex, Hfile. cbn [negb].
  by rewrite (process_directory_no_listing w _ _ _ _ _ e _ Hmk Hls).
Qed.

Lemma main_listing_error_witness :
  main Sample.world (answers "/data/photos/sub.png" "" "" "" "")
  = (Raise OSError,
     preamble ++ [EvMakedirs "/data/photos/sub.png/sub.png_watermark"],
     {| st_stdin := []; st_clock := 0 |}).
Proof.
  exact (main_listing_error Sample.world "/data/photos/sub.png" "" "" "" ""
           [] 0 20 128 OSError eq_refl eq_refl eq_refl eq_refl eq_refl
           eq_refl).
Defined.

(* ===================================================================== *)
(** ** Further properties of the placement and of the paths *)
(* ===================================================================== *)

(** The coordinate handed to [draw.text] (lines 74-83), for a measured
    extent [tw] x [th] that fits into the image with two margins of 10
    pixels: whatever the position is, the box of this extent anchored at
    the coordinate lies inside the image, at least 10 pixels from every
    edge; and for center the space left of the box and the space right of
    it differ by at most one pixel, and so above and below. This is the
    box that the program places. The glyphs themselves start at the
    coordinate plus the origin of the bounding box, which lines 66-68 drop:
    nothing is said here about where the ink falls. *)
Theorem text_stays_inside (position : string) (W H tw th : Z) :
  0 <= tw -> 0 <= th -> tw + 20 <= W -> th + 20 <= H ->
  (10 <= fst (text_origin position W H tw th)
   /\ fst (text_origin position W H tw th) + tw <= W - 10
   /\ 10 <= snd (text_origin position W H tw th)
   /\ snd (text_origin position W H tw th) + th <= H - 10)
  /\ (0 <= (W - tw - fst (text_origin "center" W H tw th))
           - fst (text_origin "center" W H tw th) <= 1
      /\ 0 <= (H - th - snd (text_origin "center" W H tw th))
              - snd (text_origin "center" W H tw th) <= 1).
Proof.
  intros Htw Hth HW HH. split.
  - unfold text_origin.
    repeat match goal with
           | |- context [if ?b then _ else _] => destruct b
           end; cbn [fst snd]; Z.div_mod_to_equations; lia.
  - change (text_origin "center" W H tw th)
      with ((W - tw) `div` 2, (H - th) `div` 2).
    cbn [fst snd]. Z.div_mod_to_equations. lia.
Qed.

Lemma text_stays_inside_witness :
  10 <= fst (text_origin "center" 101 50 20 10)
  /\ fst (text_origin "center" 101 50 20 10) + 20 <= 101 - 10
  /\ 10 <= snd (text_origin "center" 101 50 20 10)
  /\ snd (text_origin "center" 101 50 20 10) + 10 <= 50 - 10.
Proof.
  apply (text_stays_inside "center" 101 50 20 10); lia.
Defined.

Section MorePaths.
Import PyStr OsPath.

Local Arguments String.append !_ _ / : simpl nomatch.

Lemma length_append a b :
  String.length (a +:+ b) = (String.length a + String.length b)%nat.
Proof. induction a as [|x a IH]; cbn; [done|by rewrite IH]. Qed.

(** The output directory has a longer path than the input directory. *)
Lemma output_dir_of_longer d :
  (String.length d < String.length (output_dir_of d))%nat.
Proof.
  unfold output_dir_of, join.
  rewrite (startswith_no_sep _ _ (watermark_name_no_sep d)).
  destruct ((d =? "")%string || endswith sep d);
    rewrite !length_append; cbn [String.length]; rewrite ?length_append;
    cbn [String.length]; lia.
Qed.

Lemma output_dir_of_differs d : output_dir_of d <> d.
Proof.
  intros E. pose proof (output_dir_of_longer d) as H. rewrite E in H. lia.
Qed.

Lemma length_join_le a b :
  (String.length (join a b) <= String.length a + 1 + String.length b)%nat.
Proof.
  unfold join. destruct (startswith sep b); [lia|].
  destruct ((a =? "")%string || endswith sep a);
    rewrite length_append; cbn [String.length]; lia.
Qed.

End MorePaths.

(** The program does not write over its input (lines 183-191 and
    199-222): in directory mode the output file of an entry is not the
    entry itself, and two entries do not share an output file; in
    single-file mode the output file is not the input file. *)
Theorem output_is_not_input (dir_path file_path : string) (n n' : string) :
  (plain_name n = true ->
   OsPath.join (output_dir_of dir_path) n <> OsPath.join dir_path n)
  /\ (plain_name n = true -> plain_name n' = true ->
      OsPath.join (output_dir_of dir_path) n
      = OsPath.join (output_dir_of dir_path) n' -> n = n')
  /\ (plain_name (OsPath.basename file_path) = true ->
      OsPath.join (output_dir_of (OsPath.dirname file_path))
        (OsPath.basename file_path) <> file_path).
Proof.
  split; [|split].
  - intros Hn E.
    destruct (output_path_parts dir_path n Hn) as (Hout & _ & _).
    pose proof (length_join_le dir_path n) as Hle.
    pose proof (output_dir_of_longer dir_path) as Hlt.
    rewrite <- E, Hout, length_append in Hle. cbn [String.length] in Hle.
    lia.
  - intros Hn Hn' E.
    destruct (output_path_parts dir_path n Hn) as (_ & _ & <-).
    destruct (output_path_parts dir_path n' Hn') as (_ & _ & <-).
    by rewrite E.
  - intros Hn E.
    destruct (output_path_parts (OsPath.dirname file_path)
                (OsPath.basename file_path) Hn) as (_ & Hdir & _).
    rewrite E in Hdir. symmetry in Hdir.
    by apply output_dir_of_differs in Hdir.
Qed.

Lemma output_is_not_input_witness :
  OsPath.join (output_dir_of "/data/photos") "a.JPG"
  <> OsPath.join "/data/photos" "a.JPG"
  /\ OsPath.join (output_dir_of (OsPath.dirname "/data/photos/a.JPG"))
       (OsPath.basename "/data/photos/a.JPG") <> "/data/photos/a.JPG".
Proof.
  destruct (output_is_not_input "/data/photos" "/data/photos/a.JPG" "a.JPG"
              "a.JPG") as (H1 & _ & H3).
  split; [exact (H1 eq_refl)|exact (H3 eq_refl)].
Defined.

(* ===================================================================== *)
(** ** Further properties of the choice of the files *)
(* ===================================================================== *)

Section Extensions.
Import PyStr OsPath.

Local Arguments String.append !_ _ / : simpl nomatch.

(** Lower-casing neither makes nor unmakes a separator or a dot. *)
Lemma lower_char_keeps a :
  Ascii.eqb (lower_char a) sep = Ascii.eqb a sep
  /\ Ascii.eqb (lower_char a) extsep = Ascii.eqb a extsep.
Proof.
  destruct a as [[] [] [] [] [] [] [] []]; split; vm_compute; reflexivity.
Qed.

Lemma rfind_lower_sep s : rfind sep (lower s) = rfind sep s.
Proof.
  induction s as [|a s IH]; [reflexivity|].
  cbn [lower rfind]. rewrite IH.
  by destruct (lower_char_keeps a) as [-> _].
Qed.

Lemma rfind_lower_dot s : rfind extsep (lower s) = rfind extsep s.
Proof.
  induction s as [|a s IH]; [reflexivity|].
  cbn [lower rfind]. rewrite IH.
  by destruct (lower_char_keeps a) as [_ ->].
Qed.

Lemma lower_append a b : lower (a +:+ b) = lower a +:+ lower b.
Proof. induction a as [|x a IH]; cbn; [done|by rewrite IH]. Qed.

Lemma lower_skip n s : lower (skip n s) = skip n (lower s).
Proof.
  revert s. induction n as [|n IH]; intros [|a s]; try reflexivity.
  cbn. apply IH.
Qed.

Lemma take_skip n s : take n s +:+ skip n s = s.
Proof.
  revert s. induction n as [|n IH]; intros [|a s]; try reflexivity.
  cbn. by rewrite IH.
Qed.

Lemma rfind_append c a b :
  rfind c (a +:+ b)
  = if 0 <=? rfind c b then Z.of_nat (String.length a) + rfind c b
    else rfind c a.
Proof.
  induction a as [|x a IH]; cbn [String.append rfind String.length].
  - pose proof (rfind_bounds c b). destruct (0 <=? rfind c b) eqn:E; lia.
  - rewrite IH. pose proof (rfind_bounds c b).
    destruct (0 <=? rfind c b) eqn:E; [|reflexivity].
    destruct (0 <=? Z.of_nat (String.length a) + rfind c b) eqn:E'; lia.
Qed.

Lemma skip_append_plus a b j :
  skip (String.length a + j) (a +:+ b) = skip j b.
Proof. induction a as [|x a IH]; cbn; [done|exact IH]. Qed.

Lemma splitext_scan_shift a n j fuel :
  0 <= j ->
  splitext_scan (a +:+ n) (Z.of_nat (String.length a) + j) fuel
  = splitext_scan n j fuel.
Proof.
  revert j. induction fuel as [|fuel IH]; intros j Hj; [reflexivity|].
  cbn [splitext_scan]. unfold from.
  replace (Z.to_nat (Z.of_nat (String.length a) + j))
    with (String.length a + Z.to_nat j)%nat by lia.
  rewrite skip_append_plus.
  replace (Z.of_nat (String.length a) + j + 1)
    with (Z.of_nat (String.length a) + (j + 1)) by lia.
  rewrite IH by lia. reflexivity.
Qed.

(** The extension of a path is the extension of its last component. *)
Lemma splitext_last_component a n :
  rfind sep n = -1 ->
  snd (splitext (a +:+ String sep n)) = snd (splitext n).
Proof.
  intros Hn. unfold splitext.
  rewrite (rfind_app_sep sep a n Hn), Hn.
  rewrite (app_String a sep n), (rfind_append extsep).
  rewrite length_app_one.
  pose proof (rfind_bounds extsep n) as Hb.
  destruct (0 <=? rfind extsep n) eqn:Ed.
  - apply Z.leb_le in Ed.
    assert ((Z.of_nat (String.length a)
             <? Z.of_nat (S (String.length a)) + rfind extsep n) = true)
      as -> by (apply Z.ltb_lt; lia).
    assert ((-1 <? rfind extsep n) = true) as -> by (apply Z.ltb_lt; lia).
    cbn [andb].
    replace (Z.of_nat (String.length a) + 1)
      with (Z.of_nat (String.length (a +:+ String sep "")) + 0)
      by (rewrite length_app_one; lia).
    replace (Z.to_nat (Z.of_nat (S (String.length a)) + rfind extsep n
                       - (Z.of_nat (String.length (a +:+ String sep "")) + 0)))
      with (Z.to_nat (rfind extsep n - (-1 + 1)))
      by (rewrite length_app_one; lia).
    rewrite splitext_scan_shift by lia.
    change (-1 + 1) with 0.
    destruct (splitext_scan n 0 (Z.to_nat (rfind extsep n - 0)));
      [|reflexivity].
    cbn [snd]. unfold from.
    replace (Z.to_nat (Z.of_nat (S (String.length a)) + rfind extsep n))
      with (String.length (a +:+ String sep "")
            + Z.to_nat (rfind extsep n))%nat
      by (rewrite length_app_one; lia).
    apply skip_append_plus.
  - apply Z.leb_gt in Ed.
    assert (rfind extsep n = -1) as Hd by lia. rewrite Hd.
    rewrite (rfind_append extsep a (String sep "")).
    change (rfind extsep (String sep "")) with (-1).
    change (0 <=? -1) with false. cbn iota.
    pose proof (rfind_bounds extsep a) as Ha.
    assert ((Z.of_nat (String.length a) <? rfind extsep a) = false) as ->
      by (apply Z.ltb_ge; lia).
    reflexivity.
Qed.

Lemma join_last_component d n :
  plain_name n = true ->
  join d n = n \/ exists a, join d n = a +:+ String sep n.
Proof.
  intros [Hne Hn]%plain_name_spec. unfold join.
  rewrite (startswith_no_sep _ _ Hn).
  destruct (d =? "")%string eqn:Ed.
  { apply String.eqb_eq in Ed as ->. by left. }
  right. destruct (endswith sep d) eqn:He; cbn [orb].
  - destruct (last_char d) as [->|(a & c & ->)]; [done|].
    rewrite endswith_last in He. apply Ascii.eqb_eq in He as ->.
    exists a. by rewrite <- app_String.
  - by exists d.
Qed.

End Extensions.

(** Both modes choose by the same rule (lines 172-174 and 211-213):
    single-file mode looks at the extension of the whole path, directory
    mode at that of the file name, and the two agree. A file is taken in
    single-file mode exactly when it would be taken as an entry of its
    directory. *)
Theorem extension_check_agrees (dir_path file_name : string) :
  plain_name file_name = true ->
  has_image_extension (OsPath.join dir_path file_name)
  = has_image_extension file_name.
Proof.
  intros Hn. pose proof Hn as [_ Hsep]%plain_name_spec.
  unfold has_image_extension.
  destruct (join_last_component dir_path file_name Hn) as [->|[a ->]];
    [reflexivity|].
  rewrite lower_append. cbn [PyStr.lower].
  change (PyStr.lower_char OsPath.sep) with OsPath.sep.
  rewrite splitext_last_component; [reflexivity|].
  by rewrite rfind_lower_sep.
Qed.

Lemma extension_check_agrees_witness :
  has_image_extension (OsPath.join "/data/my.photos" "IMG.JPEG") = true
  /\ has_image_extension (OsPath.join "/data/my.photos" "README") = false.
Proof.
  split.
  - rewrite (extension_check_agrees "/data/my.photos" "IMG.JPEG" eq_refl).
    reflexivity.
  - rewrite (extension_check_agrees "/data/my.photos" "README" eq_refl).
    reflexivity.
Defined.

(** Nothing is processed but names that end in one of the six extensions
    (lines 172-176 and 211-215): a path that passes the check is a stem
    followed by a dot and an extension which, lower-cased, is one of .jpg,
    .jpeg, .png, .bmp, .gif, .tiff. *)
Theorem image_extension_is_a_suffix (p : string) :
  has_image_extension p = true ->
  exists stem ext,
    p = stem +:+ ext
    /\ PyStr.mem (PyStr.lower ext) image_extensions = true.
Proof.
  unfold has_image_extension, OsPath.splitext. intros H.
  destruct ((PyStr.rfind OsPath.sep (PyStr.lower p)
             <? PyStr.rfind OsPath.extsep (PyStr.lower p))
            && OsPath.splitext_scan (PyStr.lower p)
                 (PyStr.rfind OsPath.sep (PyStr.lower p) + 1)
                 (Z.to_nat (PyStr.rfind OsPath.extsep (PyStr.lower p)
                            - (PyStr.rfind OsPath.sep (PyStr.lower p) + 1))));
    [|discriminate H].
  cbn [snd] in H. unfold PyStr.from in H. rewrite <- lower_skip in H.
  exists (PyStr.take
            (Z.to_nat (PyStr.rfind OsPath.extsep (PyStr.lower p))) p),
    (PyStr.skip (Z.to_nat (PyStr.rfind OsPath.extsep (PyStr.lower p))) p).
  split; [by rewrite take_skip|exact H].
Qed.

Lemma image_extension_is_a_suffix_witness :
  exists stem ext,
    "holiday.2021.PnG" = stem +:+ ext
    /\ PyStr.mem (PyStr.lower ext) image_extensions = true.
Proof.
  apply (image_extension_is_a_suffix "holiday.2021.PnG"). reflexivity.
Defined.

(* ===================================================================== *)
(** ** Further properties of whole runs *)
(* ===================================================================== *)

Section Frame.

Context {A B : Type}.

Lemma keeps_stdin_bind (m : M A) (k : A -> M B) :
  keeps_stdin m -> (forall a, keeps_stdin (k a)) -> keeps_stdin (bind m k).
Proof.
  intros Hm Hk st. specialize (Hm st). unfold bind.
  destruct (m st) as [[[a|e] ev] s1]; [|exact Hm].
  specialize (Hk a s1). destruct (k a s1) as [[r ev'] s2].
  unfold state_of in *. cbn [snd] in *. congruence.
Qed.

Lemma keeps_stdin_try (body : M A) catches handler :
  keeps_stdin body -> (forall e, keeps_stdin (handler e)) ->
  keeps_stdin (try_except body catches handler).
Proof.
  intros Hb Hh st. specialize (Hb st). unfold try_except.
  destruct (body st) as [[[a|e] ev] s1]; [exact Hb|].
  destruct (catches e); [|exact Hb].
  specialize (Hh e s1). destruct (handler e s1) as [[r ev'] s2].
  unfold state_of in *. cbn [snd] in *. congruence.
Qed.

End Frame.

Lemma keeps_stdin_ret {A} (a : A) : keeps_stdin (ret a).
Proof. by intros st. Qed.

Lemma keeps_stdin_raise {A} (e : exn) : keeps_stdin (@raise A e).
Proof. by intros st. Qed.

Lemma keeps_stdin_lift {A} (r : result A) : keeps_stdin (lift r).
Proof. by intros st. Qed.

Lemma keeps_stdin_emit (e : event) : keeps_stdin (emit e).
Proof. by intros st. Qed.

Lemma keeps_stdin_for_each {A} (xs : list A) (body : A -> M unit) :
  (forall x, keeps_stdin (body x)) -> keeps_stdin (for_each xs body).
Proof.
  intros Hbody. induction xs as [|x xs IH]; [apply keeps_stdin_ret|].
  cbn. apply keeps_stdin_bind; [apply Hbody|]. intros _. exact IH.
Qed.

Section FrameOfTheProgram.

Variable w : World.

Lemma get_exif_datetime_keeps_stdin p : keeps_stdin (get_exif_datetime w p).
Proof.
  apply keeps_stdin_try.
  - apply keeps_stdin_bind; [apply keeps_stdin_lift|]. intros tags.
    destruct (scan_tags w tags datetime_tags); [apply keeps_stdin_ret|].
    apply keeps_stdin_bind; [apply keeps_stdin_lift|]. intros t.
    apply keeps_stdin_lift.
  - intros e. apply keeps_stdin_bind; [apply (keeps_stdin_emit (EvPrint _))|].
    by intros _ st.
Qed.

Lemma add_watermark_keeps_stdin image_path output_path text font_size
    font_color position opacity :
  keeps_stdin (add_watermark w image_path output_path text font_size
                 font_color position opacity).
Proof.
  unfold add_watermark.
  apply keeps_stdin_bind; [apply keeps_stdin_emit|]. intros _.
  apply keeps_stdin_try.
  2:{ intros e. apply keeps_stdin_bind;
        [apply (keeps_stdin_emit (EvPrint _))|].
      intros _. apply keeps_stdin_ret. }
  apply keeps_stdin_bind; [apply keeps_stdin_lift|]. intros src.
  apply keeps_stdin_bind.
  { intros st. by rewrite load_font_is_first_font. }
  intros f. apply keeps_stdin_bind.
  { intros st. by rewrite measure_text_run. }
  intros [tw th]. apply keeps_stdin_bind.
  { intros st. unfold alpha_composite.
    by destruct (_ && _ && _ && _)%bool. }
  intros combined. apply keeps_stdin_bind.
  { intros st. unfold Image_save. by destruct (save w _ _). }
  intros _. apply keeps_stdin_bind; [apply (keeps_stdin_emit (EvPrint _))|].
  intros _. apply keeps_stdin_ret.
Qed.

Lemma dispatch_keeps_stdin image_path font_size font_color position
    opacity :
  keeps_stdin (dispatch w image_path font_size font_color position opacity).
Proof.
  unfold dispatch.
  destruct (path_exists w image_path); cbn [negb];
    [|apply (keeps_stdin_emit (EvPrint _))].
  destruct (path_isfile w image_path).
  - unfold process_single_file.
    destruct (has_image_extension image_path); cbn [negb];
      [|apply (keeps_stdin_emit (EvPrint _))].
    apply keeps_stdin_bind.
    { unfold os_makedirs. destruct (makedirs w _);
        [apply keeps_stdin_raise|apply keeps_stdin_emit]. }
    intros _. apply keeps_stdin_bind; [apply get_exif_datetime_keeps_stdin|].
    intros d. apply keeps_stdin_bind; [apply add_watermark_keeps_stdin|].
    intros _. apply keeps_stdin_ret.
  - unfold process_directory.
    apply keeps_stdin_bind.
    { unfold os_makedirs. destruct (makedirs w _);
        [apply keeps_stdin_raise|apply keeps_stdin_emit]. }
    intros _. apply keeps_stdin_bind; [apply keeps_stdin_lift|].
    intros entries. apply keeps_stdin_for_each. intros n.
    unfold process_entry.
    destruct (path_isdir w _); [apply keeps_stdin_ret|].
    destruct (has_image_extension n); cbn [negb];
      [|apply (keeps_stdin_emit (EvPrint _))].
    apply keeps_stdin_bind; [apply get_exif_datetime_keeps_stdin|].
    intros d. apply keeps_stdin_bind; [apply add_watermark_keeps_stdin|].
    intros _. apply keeps_stdin_ret.
Qed.

End FrameOfTheProgram.

(** The program reads five lines and no more (lines 103-122): once the
    five answers are given, two of them numbers or empty, whatever follows
    on the input is still unread when the run ends, however it ends. The
    processing of the files never reads the console. *)
Theorem main_reads_five_lines (w : World) (l1 l2 l3 l4 l5 : string)
    (rest : list string) (clk : nat) (font_size opacity : Z) :
  numeric_answer l2 default_font_size = Some font_size ->
  numeric_answer l5 default_opacity = Some opacity ->
  st_stdin
    (state_of (main w {| st_stdin := l1 :: l2 :: l3 :: l4 :: l5 :: rest;
                         st_clock := clk |}))
  = rest.
Proof.
  intros Hfs Hop. rewrite (main_run w _ _ _ _ _ _ _ _ _ Hfs Hop).
  unfold state_of at 1. cbn [snd]. by rewrite dispatch_keeps_stdin.
Qed.

Lemma main_reads_five_lines_witness :
  st_stdin
    (state_of (main Sample.world
                 {| st_stdin := ["/data/photos"; ""; "red"; "center"; "200";
                                 "left over"];
                    st_clock := 0 |}))
  = ["left over"].
Proof.
  exact (main_reads_five_lines Sample.world "/data/photos" "" "red" "center"
           "200" ["left over"] 0 20 200 eq_refl eq_refl).
Defined.

(** A style that is valid is taken as typed (lines 124-154): with a
    position among the five names, an opacity in [0, 255] and a colour that
    is a name or a triple in range, no warning is printed, and the path is
    processed with the font size, the position and the opacity that were
    typed. *)
Theorem main_valid_style (w : World) (l1 l2 l3 l4 l5 : string)
    (rest : list string) (clk : nat) (font_size opacity : Z) :
  numeric_answer l2 default_font_size = Some font_size ->
  numeric_answer l5 default_opacity = Some opacity ->
  let position := text_answer l4 default_position in
  let color := text_answer l3 default_font_color in
  PyStr.mem position valid_positions = true ->
  in_byte_range opacity = true ->
  is_named_color color || is_rgb_triple color = true ->
  let run :=
    dispatch w (PyStr.strip l1) font_size (coerce_color color) position
      opacity {| st_stdin := rest; st_clock := clk |} in
  main w {| st_stdin := l1 :: l2 :: l3 :: l4 :: l5 :: rest; st_clock := clk |}
  = (result_of run, preamble ++ trace_of run, state_of run).
Proof.
  intros Hfs Hop position color Hpos Hrange Hcolor run.
  rewrite (main_run w _ _ _ _ _ _ _ _ _ Hfs Hop).
  fold position. fold color.
  unfold warnings, coerce_position, coerce_opacity.
  rewrite Hpos, Hrange, Hcolor. reflexivity.
Qed.

Lemma main_valid_style_witness :
  compositor_inputs
    (trace_of (main Sample.world
                 (answers "/data/photos/c.jpg" "36" "10,20,30" "top_left"
                    "255")))
  = ["/data/photos/c.jpg"]
  /\ Forall (carries_style 36 [10; 20; 30] "top_left" 255)
       (trace_of (main Sample.world
                    (answers "/data/photos/c.jpg" "36" "10,20,30" "top_left"
                       "255"))).
Proof.
  unfold answers.
  rewrite (main_valid_style Sample.world "/data/photos/c.jpg" "36"
             "10,20,30" "top_left" "255" [] 0 36 255 eq_refl eq_refl eq_refl
             eq_refl eq_refl).
  split; [vm_compute; reflexivity|].
  vm_compute. repeat (apply Forall_cons; split; [done|]). constructor.
Defined.

(** In directory mode nothing is written, and the compositor is not
    entered, for an entry that is a directory or whose extension is not
    that of an image (lines 203-215): every file written bears the name of
    an entry that is a file with an image extension. *)
Theorem directory_writes_only_for_images (w : World) (dir_path : string)
    (font_size : Z) (font_color : list Z) (position : string) (opacity : Z)
    (entries : list string) (st : state) :
  makedirs w (output_dir_of dir_path) = None ->
  listdir w dir_path = Ok entries ->
  Forall (lands_in (OsPath.join dir_path) (output_dir_of dir_path)
            (List.filter (selected w dir_path) entries))
    (trace_of (process_directory w dir_path font_size font_color position
                 opacity st)).
Proof.
  intros Hmk Hls.
  destruct (process_directory_run w dir_path font_size font_color position
              opacity entries st Hmk Hls) as (trs & st' & -> & Hshape).
  apply Forall_cons. split; [reflexivity|].
  unfold trace_of. cbn [fst snd]. clear Hls.
  induction Hshape as [|n tr entries' trs' Hn _ IH]; [constructor|].
  cbn [concat List.filter]. apply Forall_app.
  unfold entry_trace in Hn.
  change (selected w dir_path n)
    with (negb (path_isdir w (OsPath.join dir_path n))
          && has_image_extension n).
  destruct (path_isdir w (OsPath.join dir_path n)); cbn [negb andb].
  { subst. split; [constructor|exact IH]. }
  destruct (has_image_extension n).
  - split.
    + eapply (watermarking_lands (OsPath.join dir_path)); [|exact Hn].
      by left.
    + eapply Forall_impl; [exact IH|].
      intros [] He; try done; cbn in *.
      * destruct He as (x & Hx & ?). exists x. split; [by right|done].
      * destruct He as (x & Hx & ?). exists x. split; [by right|done].
      * destruct He as (x & Hx & ?). exists x. split; [by right|done].
  - subst. split; [by repeat constructor|exact IH].
Qed.

Lemma directory_writes_only_for_images_witness :
  Forall (lands_in (OsPath.join Sample.photos)
            "/data/photos/photos_watermark" ["a.JPG"; "b.png"])
    (trace_of (process_directory Sample.world Sample.photos 20
                 [255; 255; 255] "center" 128 Sample.idle)).
Proof.
  exact (directory_writes_only_for_images Sample.world Sample.photos 20
           [255; 255; 255] "center" 128 Sample.entries Sample.idle eq_refl
           eq_refl).
Defined.

(** ** Python's string and path functions on examples *)

Example int_ok : PyStr.int " +1_0 " = Some 10.
Proof. reflexivity. Qed.
Example int_neg : PyStr.int "-5" = Some (-5).
Proof. reflexivity. Qed.
Example int_bad1 : PyStr.int "abc" = None.
Proof. reflexivity. Qed.
Example int_bad2 : PyStr.int "1__0" = None.
Proof. reflexivity. Qed.
Example int_bad3 : PyStr.int "" = None.
Proof. reflexivity. Qed.
Example int_bad4 : PyStr.int "_1" = None.
Proof. reflexivity. Qed.
Example int_bad5 : PyStr.int "1_" = None.
Proof. reflexivity. Qed.

(** The separators FS..US are white space for [strip], not for [int]: a
    colour piece that starts with one is not an integer, and the colour is
    replaced. *)
Example int_unit_separator :
  PyStr.int (String (PyStr.chr 31) "12") = None
  /\ PyStr.strip (String (PyStr.chr 31) "12") = "12"
  /\ PyStr.int (String (PyStr.chr 133) "12 ") = Some 12.
Proof. repeat split; reflexivity. Qed.

Example color_with_unit_separator :
  parse_color ("1," +:+ String (PyStr.chr 31) "2,3") Sample.idle
  = (Ok [255; 255; 255],
     [EvPrint (WarnColor ("1," +:+ String (PyStr.chr 31) "2,3"))],
     Sample.idle).
Proof. vm_compute. reflexivity. Qed.
Example split_ex : PyStr.split "," "1,,2" = ["1"; ""; "2"].
Proof. reflexivity. Qed.
Example strip_ex : PyStr.strip "  a b  " = "a b".
Proof. reflexivity. Qed.
Example join_ex :
  OsPath.join "/a/photos" "photos_watermark" = "/a/photos/photos_watermark".
Proof. reflexivity. Qed.
Example join_ex2 : OsPath.join "" "_watermark" = "_watermark".
Proof. reflexivity. Qed.
Example base_ex : OsPath.basename "/a/photos" = "photos".
Proof. reflexivity. Qed.
Example base_ex2 : OsPath.basename "/a/photos/" = "".
Proof. reflexivity. Qed.
Example dir_ex : OsPath.dirname "/a/photos/x.jpg" = "/a/photos".
Proof. reflexivity. Qed.
Example dir_ex2 : OsPath.dirname "/x.jpg" = "/".
Proof. reflexivity. Qed.
Example dir_ex3 : OsPath.dirname "x.jpg" = "".
Proof. reflexivity. Qed.
Example dir_ex4 : OsPath.dirname "a//x.jpg" = "a".
Proof. reflexivity. Qed.
Example ext_ex :
  OsPath.splitext "a.b/c.tar.gz" = ("a.b/c.tar", ".gz").
Proof. reflexivity. Qed.
Example ext_ex2 :
  OsPath.splitext "a.b/.bashrc" = ("a.b/.bashrc", "").
Proof. reflexivity. Qed.
Example ext_ex3 : OsPath.splitext "a.b/c" = ("a.b/c", "").
Proof. reflexivity. Qed.
Example ext_ex4 : OsPath.splitext "..jpg" = ("..jpg", "").
Proof. reflexivity. Qed.
Example ext_ex5 : OsPath.splitext ".a.jpg" = (".a", ".jpg").
Proof. reflexivity. Qed.
Example low_ex : PyStr.lower "WhItE.JPG" = "white.jpg".
Proof. reflexivity. Qed.
